(** * MCP server management across scopes, prompt resolve errors and
      notebook diff navigation: a shallow embedding

    The development follows three parts of the workbench sources:

    - [Mcp]: the workbench MCP management service
      ([WorkbenchMcpManagementService], the facade over the user, remote
      user and workspace scopes) and the workspace aggregator
      ([WorkspaceMcpManagementService]) with its per-resource services;
    - [PromptErrors]: the [RecursiveReference] resolve error;
    - [NotebookNav]: [next]/[previous] of
      [ChatEditingNotebookEditorWidgetIntegration].

    JavaScript exceptions and rejected promises are values [Err e] of
    [Result]; code that mutates fields of [this] is written in a state and
    error monad whose state is a record of those fields.  A thrown error
    keeps the state reached so far, as in JavaScript. *)

From Stdlib Require Import ZArith String List Lia Bool.
From stdpp Require Import base option list gmap strings pretty.

#[local] Set Warnings "-clear-no-such-hyp".

Local Open Scope string_scope.
Local Open Scope list_scope.

(** ** Shared data *)

(** URIs are kept in the normal form on which [ResourceMap] keys and
    [uriIdentityService.extUri.isEqual] agree; two URI objects for the
    same resource are the same value here, so comparison is by identity
    of the resource and never by object reference. *)
Abbreviation URI := string.

Definition isEqual (a b : URI) : bool := String.eqb a b.

(** Modelled from the spec: [ConfigurationTarget] is declared in
    platform/configuration/common/configuration.js, which is not among the
    sources.  The members the services name are [USER], [USER_LOCAL],
    [USER_REMOTE], [WORKSPACE] and [WORKSPACE_FOLDER]; the others stand for
    "any other target value".  It is a numeric enum starting at 1, so every
    member is truthy. *)
Inductive ConfigurationTarget :=
| APPLICATION | USER | USER_LOCAL | USER_REMOTE
| WORKSPACE | WORKSPACE_FOLDER | DEFAULT | MEMORY.

Inductive Error :=
| IllegalTarget
| McpResourceRequired
| NoManagementService (mcpResource : URI)
| NotSupported
| AssertionFailed (message : string)
| Thrown (message : string).

Inductive Result (A : Type) :=
| Ok (a : A)
| Err (e : Error).
Arguments Ok {A} a.
Arguments Err {A} e.


(** [ILocalMcpServer]: a name, the resource it is stored in and the
    server's own configuration, which the services here never inspect. *)
Record ILocalMcpServer := {
  name : string;
  mcpResource : URI;
  config : string
}.

(** [InstallMcpServerEvent], [UninstallMcpServerEvent] and
    [DidUninstallMcpServerEvent] carry a name and a resource. *)
Record McpServerEvent := {
  ev_name : string;
  ev_mcpResource : URI
}.

Record InstallMcpServerResult := {
  ir_name : string;
  ir_mcpResource : URI;
  ir_local : option ILocalMcpServer
}.

(** [IMcpServer], the descriptor of a server to install; opaque here. *)
Record IMcpServer := {
  mcp_name : string;
  mcp_config : string
}.

(** [toResource] is the folder's method of that name. *)
Record IWorkspaceFolder := {
  folder_uri : URI;
  toResource : string -> URI
}.

Inductive Target :=
| TConfiguration (t : ConfigurationTarget)
| TFolder (folder : IWorkspaceFolder).

(** [InstallOptions], with the [target] that
    [IWorkbencMcpServerInstallOptions] adds. *)
Record InstallOptions := {
  opt_mcpResource : option URI;
  opt_target : option Target
}.

(** ** A state and error monad

    [SE S A] is a computation over the fields [S] of an object that
    returns an [A] or throws. *)
Definition SE (S A : Type) : Type := S -> Result A * S.

#[export] Instance SE_ret {S} : MRet (SE S) := fun A a st => (Ok a, st).

#[export] Instance SE_bind {S} : MBind (SE S) := fun A B f m st =>
  match m st with
  | (Ok a, st') => f a st'
  | (Err e, st') => (Err e, st')
  end.

Definition throw {S A} (e : Error) : SE S A := fun st => (Err e, st).

(** [try { body } catch (error) { handler }] *)
Definition try_catch {S A} (body : SE S A) (handler : Error -> SE S A) : SE S A :=
  fun st =>
    match body st with
    | (Ok a, st') => (Ok a, st')
    | (Err e, st') => handler e st'
    end.

(** [await p] for a promise of a collaborator that settles with [r]. *)
Definition await {S A} (r : Result A) : SE S A := fun st => (r, st).

Definition gets {S A} (f : S -> A) : SE S A := fun st => (Ok (f st), st).

(** [for (const x of xs) { body(x) }] *)
Fixpoint forOf {S A} (xs : list A) (body : A -> SE S unit) : SE S unit :=
  match xs with
  | [] => mret tt
  | x :: xs' => body x ;; forOf xs' body
  end.

Module Mcp.

(** ** The workspace aggregator, [WorkspaceMcpManagementService] *)
Module Workspace.

Inductive Emission :=
| onInstallMcpServer (e : McpServerEvent)
| onDidInstallMcpServers (e : list InstallMcpServerResult)
| onUninstallMcpServer (e : McpServerEvent)
| onDidUninstallMcpServer (e : McpServerEvent).

(** What the aggregator does to the outside, in program order: events
    fired on its four emitters, warnings logged, and the changes to the
    resource-to-service map together with the disposal of an entry. *)
Inductive Effect :=
| Fire (e : Emission)
| LogWarn (mcpResource : URI) (error : Error)
| LogError (error : Error)
| RegistrySet (mcpResource : URI)
| RegistryDelete (mcpResource : URI)
| Dispose (mcpResource : URI).

(** An entry of the map: the [WorkspaceMcpResourceManagementService]
    created for [(target, mcpResource)]. *)
Record ServiceItem := {
  service_target : ConfigurationTarget;
  service_mcpResource : URI
}.

Record State := {
  allMcpServers : list ILocalMcpServer;
  workspaceMcpManagementServices : gmap string ServiceItem;
  workspaceConfiguration : option URI;
  history : list Effect
}.

Definition initial : State :=
  {| allMcpServers := [];
     workspaceMcpManagementServices := ∅;
     workspaceConfiguration := None;
     history := [] |}.

Definition M : Type -> Type := SE State.

Definition effect (x : Effect) : M unit := fun st =>
  (Ok tt, {| allMcpServers := allMcpServers st;
             workspaceMcpManagementServices := workspaceMcpManagementServices st;
             workspaceConfiguration := workspaceConfiguration st;
             history := history st ++ [x] |}).

Definition fire (e : Emission) : M unit := effect (Fire e).

Definition setAllMcpServers (f : list ILocalMcpServer -> list ILocalMcpServer) : M unit :=
  fun st =>
  (Ok tt, {| allMcpServers := f (allMcpServers st);
             workspaceMcpManagementServices := workspaceMcpManagementServices st;
             workspaceConfiguration := workspaceConfiguration st;
             history := history st |}).

Definition setServices (f : gmap string ServiceItem -> gmap string ServiceItem) : M unit :=
  fun st =>
  (Ok tt, {| allMcpServers := allMcpServers st;
             workspaceMcpManagementServices := f (workspaceMcpManagementServices st);
             workspaceConfiguration := workspaceConfiguration st;
             history := history st |}).

Definition setWorkspaceConfiguration (c : option URI) : M unit :=
  fun st =>
  (Ok tt, {| allMcpServers := allMcpServers st;
             workspaceMcpManagementServices := workspaceMcpManagementServices st;
             workspaceConfiguration := c;
             history := history st |}).

Definition toInstallResult (server : ILocalMcpServer) : InstallMcpServerResult :=
  {| ir_name := name server;
     ir_local := Some server;
     ir_mcpResource := mcpResource server |}.

Definition toUninstallEvent (server : ILocalMcpServer) : McpServerEvent :=
  {| ev_name := name server; ev_mcpResource := mcpResource server |}.

(** [addWorkspaceService(mcpResource, target)].  [getInstalled] is how the
    call [service.getInstalled()] of the freshly created per-resource
    service settles.  The handler is written as it runs when nothing else
    happens to the aggregator while it waits for that fetch; its two
    halves, for the runs in which something does, follow below. *)
Definition addWorkspaceService (mcpResource : URI) (target : ConfigurationTarget)
    (getInstalled : Result (list ILocalMcpServer)) : M unit :=
  has ← gets (fun st => bool_decide (is_Some (workspaceMcpManagementServices st !! mcpResource)));
  if (has : bool) then mret tt
  else
    try_catch
      (installedServers ← await getInstalled;
       setAllMcpServers (fun all => all ++ installedServers) ;;
       if (0 <? length installedServers)%nat
       then fire (onDidInstallMcpServers (map toInstallResult installedServers))
       else mret tt)
      (fun error => effect (LogWarn mcpResource error)) ;;
    setServices (insert mcpResource
                   {| service_target := target; service_mcpResource := mcpResource |}) ;;
    effect (RegistrySet mcpResource).

(** The listeners that [addWorkspaceService] puts on the per-resource
    service. *)
Definition service_onInstallMcpServer (e : McpServerEvent) : M unit :=
  fire (onInstallMcpServer e).

Definition service_onDidInstallMcpServers (e : list InstallMcpServerResult) : M unit :=
  forOf e (fun r =>
    match ir_local r with
    | Some local => setAllMcpServers (fun all => all ++ [local])
    | None => mret tt
    end) ;;
  fire (onDidInstallMcpServers e).

Definition service_onUninstallMcpServer (e : McpServerEvent) : M unit :=
  fire (onUninstallMcpServer e).

(** [findIndex] then [splice(index, 1)]: drop the first match. *)
Fixpoint removeFirst {A} (p : A -> bool) (l : list A) : option (list A) :=
  match l with
  | [] => None
  | x :: l' => if p x then Some l' else cons x <$> removeFirst p l'
  end.

Definition service_onDidUninstallMcpServer (e : McpServerEvent) : M unit :=
  all ← gets allMcpServers;
  match removeFirst (fun server => isEqual (mcpResource server) (ev_mcpResource e)
                                   && String.eqb (name server) (ev_name e)) all with
  | Some all' => setAllMcpServers (fun _ => all') ;; fire (onDidUninstallMcpServer e)
  | None => mret tt
  end.

(** [removeWorkspaceService(mcpResource)]; [getInstalled] is how
    [serviceItem.service.getInstalled()] settles. *)
Definition removeWorkspaceService (mcpResource' : URI)
    (getInstalled : Result (list ILocalMcpServer)) : M unit :=
  serviceItem ← gets (fun st => workspaceMcpManagementServices st !! mcpResource');
  match serviceItem with
  | Some _ =>
      try_catch
        (installedServers ← await getInstalled;
         setAllMcpServers (List.filter (fun server =>
           negb (existsb (fun uninstalled =>
                   isEqual (mcpResource uninstalled) (mcpResource server))
                 installedServers))) ;;
         forOf installedServers (fun server =>
           fire (onDidUninstallMcpServer (toUninstallEvent server))))
        (fun error => effect (LogWarn mcpResource' error)) ;;
      setServices (delete mcpResource') ;;
      effect (RegistryDelete mcpResource') ;;
      effect (Dispose mcpResource')
  | None => mret tt
  end.

Definition getInstalled : M (list ILocalMcpServer) := gets allMcpServers.

(** *** The two halves of a folder handler

    Both folder handlers are async functions that wait once, for the fetch
    of the installed servers.  The part before the fetch tells whether the
    handler goes on; the part after it runs when the fetch settles, and
    other handlers may have run in between: nothing awaits a handler that
    an event starts, and a folder change starts the handlers of its
    folders together. *)

(** [addWorkspaceService] up to its fetch; [true] when the fetch is made. *)
Definition addWorkspaceService_begin (mcpResource : URI) : M bool :=
  has ← gets (fun st => bool_decide (is_Some (workspaceMcpManagementServices st !! mcpResource)));
  mret (negb has).

(** [addWorkspaceService] from its fetch on. *)
Definition addWorkspaceService_resume (mcpResource : URI) (target : ConfigurationTarget)
    (getInstalled : Result (list ILocalMcpServer)) : M unit :=
  try_catch
    (installedServers ← await getInstalled;
     setAllMcpServers (fun all => all ++ installedServers) ;;
     if (0 <? length installedServers)%nat
     then fire (onDidInstallMcpServers (map toInstallResult installedServers))
     else mret tt)
    (fun error => effect (LogWarn mcpResource error)) ;;
  setServices (insert mcpResource
                 {| service_target := target; service_mcpResource := mcpResource |}) ;;
  effect (RegistrySet mcpResource).

(** [removeWorkspaceService] up to its fetch; [true] when the fetch is
    made. *)
Definition removeWorkspaceService_begin (mcpResource' : URI) : M bool :=
  serviceItem ← gets (fun st => workspaceMcpManagementServices st !! mcpResource');
  mret (match serviceItem with Some _ => true | None => false end).

(** [removeWorkspaceService] from its fetch on. *)
Definition removeWorkspaceService_resume (mcpResource' : URI)
    (getInstalled : Result (list ILocalMcpServer)) : M unit :=
  try_catch
    (installedServers ← await getInstalled;
     setAllMcpServers (List.filter (fun server =>
       negb (existsb (fun uninstalled =>
               isEqual (mcpResource uninstalled) (mcpResource server))
             installedServers))) ;;
     forOf installedServers (fun server =>
       fire (onDidUninstallMcpServer (toUninstallEvent server))))
    (fun error => effect (LogWarn mcpResource' error)) ;;
  setServices (delete mcpResource') ;;
  effect (RegistryDelete mcpResource') ;;
  effect (Dispose mcpResource').

(** [xs.map(handler)] for handlers given in their two halves: every
    handler is called and runs up to its fetch before the next is called;
    the value is the second halves of those that wait for a fetch. *)
Fixpoint startAll (hs : list (M bool * M unit)) : M (list (M unit)) :=
  match hs with
  | [] => mret []
  | h :: hs' =>
      waits ← fst h;
      rest ← startAll hs';
      mret (if (waits : bool) then snd h :: rest else rest)
  end.

(** The handlers that wait, in the order in which their fetches settle:
    each number of [order] picks one of the handlers that still wait, and
    those left when [order] ends follow as they stand.  Every order of
    settling is had this way. *)
Fixpoint arrange {A} (order : list nat) (waiting : list A) : list A :=
  match order with
  | [] => waiting
  | n :: order' =>
      match waiting !! n with
      | Some r => r :: arrange order' (delete n waiting)
      | None => arrange order' waiting
      end
  end.

(** The handlers that wait are resumed as their fetches settle; a failure
    of one is kept from the others. *)
Fixpoint settleAll (resumed : list (M unit)) : M unit :=
  match resumed with
  | [] => mret tt
  | r :: resumed' => (fun st => (Ok tt, snd (r st))) ;; settleAll resumed'
  end.

(** [Promise.allSettled(xs.map(handler))]: the handlers are all called
    before the fetch of any of them settles, and the fetches settle in
    [order]. *)
Definition allSettled (hs : list (M bool * M unit)) (order : list nat) : M unit :=
  waiting ← startAll hs;
  settleAll (arrange order waiting).

Section Handlers.

(** [WORKSPACE_STANDALONE_CONFIGURATIONS[MCP_CONFIGURATION_KEY]], a
    constant of services/configuration/common/configuration.js. *)
Variable MCP_STANDALONE_CONFIGURATION : string.

(** How a per-resource service's [install] runs; it belongs to
    [AbstractMcpManagementService], outside these sources. *)
Variable service_install :
  ServiceItem -> IMcpServer -> InstallOptions -> M ILocalMcpServer.

Variable service_uninstall :
  ServiceItem -> ILocalMcpServer -> M unit.

(** [onDidChangeWorkbenchState()]: [configuration] is
    [workspaceContextService.getWorkspace().configuration]; the two fetch
    results are those of the removal and of the registration. *)
Definition onDidChangeWorkbenchState (configuration : option URI)
    (removedInstalled addedInstalled : Result (list ILocalMcpServer)) : M unit :=
  old ← gets workspaceConfiguration;
  match old with
  | Some c => removeWorkspaceService c removedInstalled
  | None => mret tt
  end ;;
  setWorkspaceConfiguration configuration ;;
  match configuration with
  | Some c => addWorkspaceService c WORKSPACE addedInstalled
  | None => mret tt
  end.

(** [onDidChangeWorkspaceFolders(e)]: each folder of [e.removed] and
    [e.added] comes with the way its fetch settles; [removedOrder] and
    [addedOrder] are the orders in which the fetches of the two batches
    settle. *)
Definition onDidChangeWorkspaceFolders
    (removed added : list (IWorkspaceFolder * Result (list ILocalMcpServer)))
    (removedOrder addedOrder : list nat) : M unit :=
  try_catch
    (allSettled (map (fun fr =>
       (removeWorkspaceService_begin (toResource (fst fr) MCP_STANDALONE_CONFIGURATION),
        removeWorkspaceService_resume (toResource (fst fr) MCP_STANDALONE_CONFIGURATION)
          (snd fr)))
       removed) removedOrder)
    (fun error => effect (LogError error)) ;;
  try_catch
    (allSettled (map (fun fr =>
       (addWorkspaceService_begin (toResource (fst fr) MCP_STANDALONE_CONFIGURATION),
        addWorkspaceService_resume (toResource (fst fr) MCP_STANDALONE_CONFIGURATION)
          WORKSPACE_FOLDER (snd fr)))
       added) addedOrder)
    (fun error => effect (LogError error)).

(** [install(server, options)] *)
Definition install (server : IMcpServer) (options : option InstallOptions) : M ILocalMcpServer :=
  match options with
  | Some o =>
      match opt_mcpResource o with
      | Some r =>
          mcpManagementServiceItem ← gets (fun st => workspaceMcpManagementServices st !! r);
          match mcpManagementServiceItem with
          | Some item => service_install item server o
          | None => throw (NoManagementService r)
          end
      | None => throw McpResourceRequired
      end
  | None => throw McpResourceRequired
  end.

(** [uninstall(server, options)] *)
Definition uninstall (server : ILocalMcpServer) : M unit :=
  mcpManagementServiceItem ← gets (fun st => workspaceMcpManagementServices st !! mcpResource server);
  match mcpManagementServiceItem with
  | Some item => service_uninstall item server
  | None => throw (NoManagementService (mcpResource server))
  end.

End Handlers.

(** [installFromGallery()] *)
Definition installFromGallery : M ILocalMcpServer := throw NotSupported.

(** *** What the folder handlers are given and leave behind *)

(** The servers a fetch yields for the aggregator: those it reports, or
    none when it fails. *)
Definition fetched (getInstalled' : Result (list ILocalMcpServer)) : list ILocalMcpServer :=
  match getInstalled' with
  | Ok installedServers => installedServers
  | Err _ => []
  end.

(** [server] is removed by the filter of [removeWorkspaceService]. *)
Definition drained (installedServers : list ILocalMcpServer) (server : ILocalMcpServer) : bool :=
  existsb (fun uninstalled => isEqual (mcpResource uninstalled) (mcpResource server))
          installedServers.

Definition uninstallEvents (installedServers : list ILocalMcpServer) : list Effect :=
  map (fun server => Fire (onDidUninstallMcpServer (toUninstallEvent server))) installedServers.

(** *** Folder events and the last-known installed sets *)

(** The map has an entry for [r]. *)
Definition registered (st : State) (r : URI) : bool :=
  bool_decide (is_Some (workspaceMcpManagementServices st !! r)).


(** A call of one of the two folder handlers, with the way its fetch
    settles. *)
Inductive FolderEvent :=
| Added (mcpResource : URI) (target : ConfigurationTarget)
        (getInstalled : Result (list ILocalMcpServer))
| Removed (mcpResource : URI) (getInstalled : Result (list ILocalMcpServer)).

Definition resourceOf (ev : FolderEvent) : URI :=
  match ev with
  | Added r _ _ => r
  | Removed r _ => r
  end.

(** The two halves of the handler an event calls. *)
Definition begin (ev : FolderEvent) : M bool :=
  match ev with
  | Added r _ _ => addWorkspaceService_begin r
  | Removed r _ => removeWorkspaceService_begin r
  end.

Definition resume (ev : FolderEvent) : M unit :=
  match ev with
  | Added r target f => addWorkspaceService_resume r target f
  | Removed r f => removeWorkspaceService_resume r f
  end.

(** The handler an event calls, when nothing else happens to the
    aggregator before it returns. *)
Definition handle (ev : FolderEvent) : M unit :=
  match ev with
  | Added r target f => addWorkspaceService r target f
  | Removed r f => removeWorkspaceService r f
  end.

(** What happens to the aggregator, one thing at a time: a handler is
    called and runs up to its fetch, or the fetch of the [n]-th of the
    handlers that wait settles and that handler runs to its end. *)
Inductive Step :=
| Call (ev : FolderEvent)
| Settle (n : nat).

(** The aggregator and the handlers that wait for their fetch. *)
Record Run := {
  state : State;
  suspended : list FolderEvent
}.

Definition start : Run := {| state := initial; suspended := [] |}.

Definition step (x : Run) (s : Step) : Run :=
  match s with
  | Call ev =>
      match begin ev (state x) with
      | (Ok true, st) => {| state := st; suspended := suspended x ++ [ev] |}
      | (_, st) => {| state := st; suspended := suspended x |}
      end
  | Settle n =>
      match suspended x !! n with
      | Some ev => {| state := snd (resume ev (state x));
                      suspended := delete n (suspended x) |}
      | None => x
      end
  end.

Definition interleaved (schedule : list Step) (x : Run) : Run :=
  fold_left step schedule x.

(** The events handled in turn: each handler runs to its end before the
    next is called. *)
Definition inTurn (evs : list FolderEvent) : list Step :=
  flat_map (fun ev => [Call ev; Settle 0]) evs.

(** Whether the handler an event calls goes on to its fetch, in a given
    state of the map. *)
Definition waits (st : State) (ev : FolderEvent) : bool :=
  match ev with
  | Added r _ _ => negb (registered st r)
  | Removed r _ => registered st r
  end.

(** The steps of one [Promise.allSettled(xs.map(handler))] that nothing
    interrupts: the handlers are called, then their fetches settle in
    [order], those left after it as they stand. *)
Definition batch (evs : list FolderEvent) (order : list nat) : list Step :=
  map Call evs ++ map Settle order ++ repeat (Settle 0) (length evs).

(** The steps of one folder change that nothing interrupts. *)
Definition folderChange (standalone : string)
    (removed added : list (IWorkspaceFolder * Result (list ILocalMcpServer)))
    (removedOrder addedOrder : list nat) : list Step :=
  batch (map (fun fr => Removed (toResource (fst fr) standalone) (snd fr)) removed)
    removedOrder
  ++ batch (map (fun fr => Added (toResource (fst fr) standalone) WORKSPACE_FOLDER (snd fr))
              added)
       addedOrder.

(** The installed set last known for a resource: what its service
    reported when the registration went through, nothing when that fetch
    failed; the set is forgotten when the removal goes through. *)
Definition learn (known : gmap string (list ILocalMcpServer)) (ev : FolderEvent)
    : gmap string (list ILocalMcpServer) :=
  match ev with
  | Added r _ f => <[r := fetched f]> known
  | Removed r _ => delete r known
  end.

Definition learnt (known : gmap string (list ILocalMcpServer)) (x : Run) (s : Step)
    : gmap string (list ILocalMcpServer) :=
  match s with
  | Call _ => known
  | Settle n =>
      match suspended x !! n with
      | Some ev => learn known ev
      | None => known
      end
  end.

Fixpoint lastKnownFrom (known : gmap string (list ILocalMcpServer)) (x : Run)
    (schedule : list Step) : gmap string (list ILocalMcpServer) :=
  match schedule with
  | [] => known
  | s :: rest => lastKnownFrom (learnt known x s) (step x s) rest
  end.

Definition lastKnown (schedule : list Step) : gmap string (list ILocalMcpServer) :=
  lastKnownFrom ∅ start schedule.

Definition key (server : ILocalMcpServer) : URI * string :=
  (mcpResource server, name server).

(** [all] holds exactly the servers of the sets in [known]. *)
Definition unionOf (known : gmap string (list ILocalMcpServer))
    (all : list ILocalMcpServer) : Prop :=
  forall server, server ∈ all <-> exists r l, known !! r = Some l /\ server ∈ l.

(** The statement of the specification at the end of one schedule. *)
Definition aggregate_is_union (schedule : list Step) : Prop :=
  let st := state (interleaved schedule start) in
  unionOf (lastKnown schedule) (allMcpServers st)
  /\ NoDup (map key (allMcpServers st)).

(** What the per-resource services have to do for it.  A fetch reports
    servers of the service's own resource only; at a registration their
    names are distinct; at the removal of a resource with a non-empty
    last-known set it does not fail and reports at least one server. *)
Definition wellReported (known : gmap string (list ILocalMcpServer)) (ev : FolderEvent)
    : bool :=
  match ev with
  | Added r _ f =>
      forallb (fun server => isEqual (mcpResource server) r) (fetched f)
      && bool_decide (NoDup (map name (fetched f)))
  | Removed r f =>
      forallb (fun server => isEqual (mcpResource server) r) (fetched f)
      && match known !! r, fetched f with
         | Some (_ :: _), [] => false
         | _, _ => true
         end
  end.

(** What the callers have to do for it: no handler is called for a
    resource while another handler for that resource waits for its
    fetch. *)
Definition admissible (known : gmap string (list ILocalMcpServer)) (x : Run) (s : Step)
    : bool :=
  match s with
  | Call ev =>
      negb (existsb (fun waiting => isEqual (resourceOf waiting) (resourceOf ev))
              (suspended x))
  | Settle n =>
      match suspended x !! n with
      | Some ev => wellReported known ev
      | None => true
      end
  end.

Fixpoint disciplinedFrom (known : gmap string (list ILocalMcpServer)) (x : Run)
    (schedule : list Step) : bool :=
  match schedule with
  | [] => true
  | s :: rest => admissible known x s && disciplinedFrom (learnt known x s) (step x s) rest
  end.

Definition disciplined (schedule : list Step) : bool := disciplinedFrom ∅ start schedule.

(** The invariant behind it: the list is the union, without two entries of
    one key, the known sets are those of the registered resources, and each
    holds servers of its resource under distinct names. *)
Definition invariant (known : gmap string (list ILocalMcpServer)) (st : State) : Prop :=
  unionOf known (allMcpServers st)
  /\ NoDup (map key (allMcpServers st))
  /\ dom known = dom (workspaceMcpManagementServices st)
  /\ (forall r l, known !! r = Some l ->
        Forall (fun server => mcpResource server = r) l /\ NoDup (map name l)).

(** A handler that waits has found the map as it needs it. *)
Definition begun (known : gmap string (list ILocalMcpServer)) (ev : FolderEvent) : Prop :=
  match ev with
  | Added r _ _ => known !! r = None
  | Removed r _ => is_Some (known !! r)
  end.

(** The invariant of a run: that of the aggregator, and the handlers that
    wait are for different resources, each still finding the map as it
    found it. *)
Definition runInvariant (known : gmap string (list ILocalMcpServer)) (x : Run) : Prop :=
  invariant known (state x)
  /\ NoDup (map resourceOf (suspended x))
  /\ Forall (begun known) (suspended x).

(** What a handler leaves in the history when it runs from its fetch
    on. *)
Definition registrationEffects (r : URI) (f : Result (list ILocalMcpServer)) : list Effect :=
  match f with
  | Ok [] => []
  | Ok l => [Fire (onDidInstallMcpServers (map toInstallResult l))]
  | Err e => [LogWarn r e]
  end ++ [RegistrySet r].

Definition removalEffects (r : URI) (f : Result (list ILocalMcpServer)) : list Effect :=
  match f with
  | Ok l => uninstallEvents l
  | Err e => [LogWarn r e]
  end ++ [RegistryDelete r; Dispose r].

(** The removals of a folder change, from their fetches on. *)
Definition removals (standalone : string)
    (leaving : list (IWorkspaceFolder * Result (list ILocalMcpServer))) (st : State) : State :=
  fold_left (fun st' fr =>
      snd (removeWorkspaceService_resume (toResource (fst fr) standalone) (snd fr) st'))
    leaving st.

(** The registrations of a folder change, from their fetches on. *)
Definition registrations (standalone : string)
    (joining : list (IWorkspaceFolder * Result (list ILocalMcpServer))) (st : State) : State :=
  fold_left (fun st' fr =>
      snd (addWorkspaceService_resume (toResource (fst fr) standalone) WORKSPACE_FOLDER
             (snd fr) st'))
    joining st.

(** *** The listeners, seen from outside *)

(** The servers a batch of install results carries. *)
Definition locals (e : list InstallMcpServerResult) : list ILocalMcpServer :=
  flat_map (fun result => match ir_local result with
                          | Some local => [local]
                          | None => []
                          end) e.

(** The test of [findIndex] in the did-uninstall listener. *)
Definition matches (e : McpServerEvent) (server : ILocalMcpServer) : bool :=
  isEqual (mcpResource server) (ev_mcpResource e) && String.eqb (name server) (ev_name e).

End Workspace.

(** ** [WorkspaceMcpResourceManagementService]

    Its state is that of [AbstractMcpManagementService], which is not
    among the sources; the override below does not touch it. *)
Module WorkspaceResource.

Definition installFromGallery {S : Type} (st : S) : Result ILocalMcpServer * S :=
  (Err NotSupported, st).

End WorkspaceResource.

(** ** The facade, [WorkbenchMcpManagementService] *)
Module Workbench.

Inductive LocalMcpServerScope := User | RemoteUser | Workspace.

(** [IWorkbenchLocalMcpServer]: the fields of [ILocalMcpServer] and the
    optional [scope]. *)
Record IWorkbenchLocalMcpServer := {
  w_name : string;
  w_mcpResource : URI;
  w_config : string;
  scope : option LocalMcpServerScope
}.

Record IWorkbenchMcpServerInstallResult := {
  wr_name : string;
  wr_mcpResource : URI;
  wr_local : option IWorkbenchLocalMcpServer
}.

(** A user data profile, as far as the facade reads it. *)
Record IUserDataProfile := {
  isDefault : bool;
  p_mcpResource : URI;
  extensionsResource : URI
}.

(** The collaborators the facade reads from.  [remoteMcpManagementService]
    tells whether the remote agent connection, and so the remote service,
    exists. *)
Record Env := {
  currentProfile : IUserDataProfile;
  profiles : list IUserDataProfile;
  getRemoteProfile : IUserDataProfile -> IUserDataProfile;
  getRemoteProfiles : list IUserDataProfile;
  workspace_configuration : option URI;
  remoteMcpManagementService : bool
}.

(** The eight emitters of the facade. *)
Inductive Emission :=
| onInstallMcpServer (e : McpServerEvent)
| onDidInstallMcpServers (e : list IWorkbenchMcpServerInstallResult)
| onUninstallMcpServer (e : McpServerEvent)
| onDidUninstallMcpServer (e : McpServerEvent)
| onInstallMcpServerInCurrentProfile (e : McpServerEvent)
| onDidInstallMcpServersInCurrentProfile (e : list IWorkbenchMcpServerInstallResult)
| onUninstallMcpServerInCurrentProfile (e : McpServerEvent)
| onDidUninstallMcpServerInCurrentProfile (e : McpServerEvent).

(** [{ ...server, scope }] *)
Definition toWorkspaceMcpServer (server : ILocalMcpServer) (scope' : LocalMcpServerScope)
    : IWorkbenchLocalMcpServer :=
  {| w_name := name server;
     w_mcpResource := mcpResource server;
     w_config := config server;
     scope := Some scope' |}.

(** [{ ...result, local: result.local ? toWorkspaceMcpServer(result.local, scope) : undefined }] *)
Definition toWorkbenchResult (scope' : LocalMcpServerScope) (result : InstallMcpServerResult)
    : IWorkbenchMcpServerInstallResult :=
  {| wr_name := ir_name result;
     wr_mcpResource := ir_mcpResource result;
     wr_local := match ir_local result with
                 | Some local => Some (toWorkspaceMcpServer local scope')
                 | None => None
                 end |}.

(** [getRemoteMcpResource(mcpResource?)] *)
Definition getRemoteMcpResource (env : Env) (mcpResource' : option URI) : option URI :=
  if negb (bool_decide (is_Some mcpResource')) && isDefault (currentProfile env) then None
  else
    let r := default (p_mcpResource (currentProfile env)) mcpResource' in
    match List.find (fun p => isEqual (p_mcpResource p) r) (profiles env) with
    | Some profile => Some (extensionsResource (getRemoteProfile env profile))
    | None =>
        extensionsResource <$>
          List.find (fun p => isEqual (extensionsResource p) r) (getRemoteProfiles env)
    end.

(** *** Event wiring of the constructor *)

(** Listeners on the user scope service, [mcpManagementService]. *)
Definition user_onInstallMcpServer (env : Env) (e : McpServerEvent) : list Emission :=
  [onInstallMcpServer e] ++
  (if isEqual (ev_mcpResource e) (p_mcpResource (currentProfile env))
   then [onInstallMcpServerInCurrentProfile e] else []).

(** One turn of the [for (const result of e)] loops: the two arrays that
    are filled. *)
Definition pushResult (scope' : LocalMcpServerScope) (inCurrentProfile : URI -> bool)
    (acc : list IWorkbenchMcpServerInstallResult * list IWorkbenchMcpServerInstallResult)
    (result : InstallMcpServerResult) :=
  let workbenchResult := toWorkbenchResult scope' result in
  (fst acc ++ [workbenchResult],
   if inCurrentProfile (ir_mcpResource result)
   then snd acc ++ [workbenchResult] else snd acc).

Definition user_onDidInstallMcpServers (env : Env) (e : list InstallMcpServerResult)
    : list Emission :=
  let '(mcpServerInstallResult, mcpServerInstallResultInCurrentProfile) :=
    fold_left (pushResult User
                 (fun r => isEqual r (p_mcpResource (currentProfile env))))
              e ([], []) in
  [onDidInstallMcpServers mcpServerInstallResult] ++
  (if (0 <? length mcpServerInstallResultInCurrentProfile)%nat
   then [onDidInstallMcpServersInCurrentProfile mcpServerInstallResultInCurrentProfile]
   else []).

Definition user_onUninstallMcpServer (env : Env) (e : McpServerEvent) : list Emission :=
  [onUninstallMcpServer e] ++
  (if isEqual (ev_mcpResource e) (p_mcpResource (currentProfile env))
   then [onUninstallMcpServerInCurrentProfile e] else []).

Definition user_onDidUninstallMcpServer (env : Env) (e : McpServerEvent) : list Emission :=
  [onDidUninstallMcpServer e] ++
  (if isEqual (ev_mcpResource e) (p_mcpResource (currentProfile env))
   then [onDidUninstallMcpServerInCurrentProfile e] else []).

(** Listeners on the workspace aggregator. *)
Definition workspace_onInstallMcpServer (e : McpServerEvent) : list Emission :=
  [onInstallMcpServer e; onInstallMcpServerInCurrentProfile e].

Definition workspace_onDidInstallMcpServers (e : list InstallMcpServerResult)
    : list Emission :=
  let mcpServerInstallResult :=
    fold_left (fun acc result => acc ++ [toWorkbenchResult Workspace result]) e [] in
  [onDidInstallMcpServersInCurrentProfile mcpServerInstallResult;
   onDidInstallMcpServersInCurrentProfile mcpServerInstallResult].

Definition workspace_onUninstallMcpServer (e : McpServerEvent) : list Emission :=
  [onUninstallMcpServer e; onUninstallMcpServerInCurrentProfile e].

Definition workspace_onDidUninstallMcpServer (e : McpServerEvent) : list Emission :=
  [onDidUninstallMcpServer e; onDidUninstallMcpServerInCurrentProfile e].

(** Listeners on the remote service.
    [remoteMcpResource ? isEqual(e.mcpResource, remoteMcpResource) : currentProfile.isDefault] *)
Definition remoteInCurrentProfile (env : Env) (mcpResource' : URI) : bool :=
  match getRemoteMcpResource env (Some (p_mcpResource (currentProfile env))) with
  | Some remoteMcpResource => isEqual mcpResource' remoteMcpResource
  | None => isDefault (currentProfile env)
  end.

Definition remote_onInstallMcpServer (env : Env) (e : McpServerEvent) : list Emission :=
  [onInstallMcpServer e] ++
  (if remoteInCurrentProfile env (ev_mcpResource e)
   then [onInstallMcpServerInCurrentProfile e] else []).

Definition remote_onDidInstallMcpServers (env : Env) (e : list InstallMcpServerResult)
    : list Emission :=
  let '(mcpServerInstallResult, mcpServerInstallResultInCurrentProfile) :=
    fold_left (pushResult RemoteUser (remoteInCurrentProfile env)) e ([], []) in
  [onDidInstallMcpServersInCurrentProfile mcpServerInstallResult] ++
  (if (0 <? length mcpServerInstallResultInCurrentProfile)%nat
   then [onDidInstallMcpServersInCurrentProfile mcpServerInstallResultInCurrentProfile]
   else []).

Definition remote_onUninstallMcpServer (env : Env) (e : McpServerEvent) : list Emission :=
  [onUninstallMcpServer e] ++
  (if remoteInCurrentProfile env (ev_mcpResource e)
   then [onUninstallMcpServerInCurrentProfile e] else []).

Definition remote_onDidUninstallMcpServer (env : Env) (e : McpServerEvent) : list Emission :=
  [onDidUninstallMcpServer e] ++
  (if remoteInCurrentProfile env (ev_mcpResource e)
   then [onDidUninstallMcpServerInCurrentProfile e] else []).

(** An event of one of the underlying services. *)
Inductive ServiceEvent :=
| InstallMcpServer (e : McpServerEvent)
| DidInstallMcpServers (e : list InstallMcpServerResult)
| UninstallMcpServer (e : McpServerEvent)
| DidUninstallMcpServer (e : McpServerEvent).

(** What the facade fires when the service of scope [source] fires [ev].
    The remote listeners exist only with a remote service. *)
Definition reemit (env : Env) (source : LocalMcpServerScope) (ev : ServiceEvent)
    : list Emission :=
  match source, ev with
  | User, InstallMcpServer e => user_onInstallMcpServer env e
  | User, DidInstallMcpServers e => user_onDidInstallMcpServers env e
  | User, UninstallMcpServer e => user_onUninstallMcpServer env e
  | User, DidUninstallMcpServer e => user_onDidUninstallMcpServer env e
  | Workspace, InstallMcpServer e => workspace_onInstallMcpServer e
  | Workspace, DidInstallMcpServers e => workspace_onDidInstallMcpServers e
  | Workspace, UninstallMcpServer e => workspace_onUninstallMcpServer e
  | Workspace, DidUninstallMcpServer e => workspace_onDidUninstallMcpServer e
  | RemoteUser, _ =>
      if remoteMcpManagementService env then
        match ev with
        | InstallMcpServer e => remote_onInstallMcpServer env e
        | DidInstallMcpServers e => remote_onDidInstallMcpServers env e
        | UninstallMcpServer e => remote_onUninstallMcpServer env e
        | DidUninstallMcpServer e => remote_onDidUninstallMcpServer env e
        end
      else []
  end.

(** *** [getInstalled()] *)

(** The three queries: the user service is asked for a resource, the
    remote service, when there is one, for an optional resource, the
    workspace aggregator for everything it has. *)
Record Services := {
  user_getInstalled : URI -> Result (list ILocalMcpServer);
  remote_getInstalled : option URI -> Result (list ILocalMcpServer);
  workspace_getInstalled : Result (list ILocalMcpServer)
}.

(** [for (const server of servers) installed.push(toWorkspaceMcpServer(server, scope))] *)
Definition pushServers (scope' : LocalMcpServerScope) (servers : list ILocalMcpServer)
    (installed : list IWorkbenchLocalMcpServer) : list IWorkbenchLocalMcpServer :=
  fold_left (fun acc server => acc ++ [toWorkspaceMcpServer server scope']) servers installed.

(** [Promise.all] rejects as soon as one of the three does. *)
Definition getInstalled (env : Env) (sv : Services) : Result (list IWorkbenchLocalMcpServer) :=
  match user_getInstalled sv (p_mcpResource (currentProfile env)),
        (if remoteMcpManagementService env
         then remote_getInstalled sv (getRemoteMcpResource env None)
         else Ok []),
        workspace_getInstalled sv with
  | Ok userServers, Ok remoteServers, Ok workspaceServers =>
      Ok (pushServers Workspace workspaceServers
           (pushServers RemoteUser remoteServers
             (pushServers User userServers [])))
  | Err e, _, _ => Err e
  | _, Err e, _ => Err e
  | _, _, Err e => Err e
  end.

(** *** [install], [installFromGallery], [uninstall]

    Each either throws or hands over to exactly one underlying service;
    the value is that one call. *)
Inductive Call :=
| workspace_install (server : IMcpServer) (options : InstallOptions)
| remote_install (server : IMcpServer) (options : InstallOptions)
| user_install (server : IMcpServer) (options : InstallOptions)
| user_installFromGallery (server : IMcpServer) (options : InstallOptions)
| workspace_uninstall (server : IWorkbenchLocalMcpServer)
| remote_uninstall (server : IWorkbenchLocalMcpServer)
| user_uninstall (server : IWorkbenchLocalMcpServer) (mcpResource : URI).

Definition withResource (o : InstallOptions) (r : option URI) : InstallOptions :=
  {| opt_mcpResource := r; opt_target := opt_target o |}.

Section Install.

Variable MCP_STANDALONE_CONFIGURATION : string.

Definition install (env : Env) (server : IMcpServer) (options : option InstallOptions)
    : Result Call :=
  let options := default {| opt_mcpResource := None; opt_target := None |} options in
  match opt_target options with
  | Some (TConfiguration WORKSPACE) =>
      match workspace_configuration env with
      | Some mcpResource' => Ok (workspace_install server (withResource options (Some mcpResource')))
      | None => Err IllegalTarget
      end
  | Some (TFolder folder) =>
      Ok (workspace_install server
            (withResource options (Some (toResource folder MCP_STANDALONE_CONFIGURATION))))
  | Some (TConfiguration USER_REMOTE) =>
      if remoteMcpManagementService env
      then Ok (remote_install server
                 (withResource options (getRemoteMcpResource env (opt_mcpResource options))))
      else Err IllegalTarget
  | Some (TConfiguration USER) | Some (TConfiguration USER_LOCAL) | None =>
      Ok (user_install server
            (withResource options (Some (p_mcpResource (currentProfile env)))))
  | Some (TConfiguration _) => Err IllegalTarget
  end.

End Install.

Definition installFromGallery (env : Env) (server : IMcpServer) (options : option InstallOptions)
    : Result Call :=
  let options := default {| opt_mcpResource := None; opt_target := None |} options in
  Ok (user_installFromGallery server
        (match opt_mcpResource options with
         | Some _ => options
         | None => withResource options (Some (p_mcpResource (currentProfile env)))
         end)).

Definition uninstall (env : Env) (server : IWorkbenchLocalMcpServer) : Result Call :=
  match scope server with
  | Some Workspace => Ok (workspace_uninstall server)
  | Some RemoteUser =>
      if remoteMcpManagementService env then Ok (remote_uninstall server)
      else Err IllegalTarget
  | _ => Ok (user_uninstall server (p_mcpResource (currentProfile env)))
  end.

(** *** What a caller observes *)

(** The server a tagged record was made from. *)
Definition untagged (server : IWorkbenchLocalMcpServer) : ILocalMcpServer :=
  {| name := w_name server; mcpResource := w_mcpResource server; config := w_config server |}.

Definition isCurrentProfileStream (x : Emission) : bool :=
  match x with
  | onInstallMcpServerInCurrentProfile _
  | onDidInstallMcpServersInCurrentProfile _
  | onUninstallMcpServerInCurrentProfile _
  | onDidUninstallMcpServerInCurrentProfile _ => true
  | _ => false
  end.

(** What was fired on the four all-scopes streams, and on the four
    current-profile streams. *)
Definition onAllScopes (out : list Emission) : list Emission :=
  List.filter (fun x => negb (isCurrentProfileStream x)) out.


(** The events that carry one name and one resource. *)
Inductive SingleKind := Installing | Uninstalling | Uninstalled.



Definition inCurrentProfile (k : SingleKind) (e : McpServerEvent) : Emission :=
  match k with
  | Installing => onInstallMcpServerInCurrentProfile e
  | Uninstalling => onUninstallMcpServerInCurrentProfile e
  | Uninstalled => onDidUninstallMcpServerInCurrentProfile e
  end.



(** The scope of the service a call goes to. *)
Definition calledScope (call : Call) : LocalMcpServerScope :=
  match call with
  | workspace_install _ _ | workspace_uninstall _ => Workspace
  | remote_install _ _ | remote_uninstall _ => RemoteUser
  | user_install _ _ | user_installFromGallery _ _ | user_uninstall _ _ => User
  end.

End Workbench.

End Mcp.

(** ** The aggregator's events as the facade hears them *)
Module McpWiring.

(** The event of the aggregator's emitter, as the facade's listener on
    that emitter receives it. *)
Definition heard (e : Mcp.Workspace.Emission) : Mcp.Workbench.ServiceEvent :=
  match e with
  | Mcp.Workspace.onInstallMcpServer x => Mcp.Workbench.InstallMcpServer x
  | Mcp.Workspace.onDidInstallMcpServers x => Mcp.Workbench.DidInstallMcpServers x
  | Mcp.Workspace.onUninstallMcpServer x => Mcp.Workbench.UninstallMcpServer x
  | Mcp.Workspace.onDidUninstallMcpServer x => Mcp.Workbench.DidUninstallMcpServer x
  end.

(** What the facade fires for what the aggregator did. *)
Definition forwarded (env : Mcp.Workbench.Env) (h : list Mcp.Workspace.Effect)
    : list Mcp.Workbench.Emission :=
  flat_map (fun x =>
    match x with
    | Mcp.Workspace.Fire e => Mcp.Workbench.reemit env Mcp.Workbench.Workspace (heard e)
    | _ => []
    end) h.

End McpWiring.

(** ** Prompt resolve errors *)
Module PromptErrors.

Definition DEFAULT_RECURSIVE_PATH_JOIN_CHAR : string := " -> ".

(** Modelled from the spec: [assert] of base/common/assert.js is not among
    the sources and the specification does not describe it.  It is taken
    to throw, with the given message, exactly when its condition is false;
    the constructor's own comment ("sanity check") relies on that. *)
Definition assert (condition : bool) (message : string) : Result unit :=
  if condition then Ok tt else Err (AssertionFailed message).

(** [Array.prototype.join] on strings *)
Definition join (l : list string) (separator : string) : string :=
  String.concat separator l.

Record RecursiveReference := {
  uri : URI;
  recursivePath : list string;
  message : string;
  errorType : string
}.

(** [new RecursiveReference(uri, recursivePath)] *)
Definition new_RecursiveReference (uri' : URI) (recursivePath' : list string)
    : Result RecursiveReference :=
  match assert (2 <=? length recursivePath')%nat
          ("Recursive path must contain at least two paths, got '"
             +:+ pretty (length recursivePath') +:+ "'.") with
  | Err e => Err e
  | Ok _ =>
      let pathString := join recursivePath' DEFAULT_RECURSIVE_PATH_JOIN_CHAR in
      Ok {| uri := uri';
            recursivePath := recursivePath';
            message := "Recursive references found: " +:+ pathString +:+ ".";
            errorType := "RecursiveReferenceError" |}
  end.

End PromptErrors.

(** ** Navigation in [ChatEditingNotebookEditorWidgetIntegration] *)
Module NotebookNav.

Inductive CellChangeType := Insert | Delete | Modified | Unchanged.

Record LineRange := {
  startLineNumber : nat;
  endLineNumberExclusive : nat
}.

(** Modelled from the spec: [ICellDiffInfo] is declared in
    notebookCellChanges.js, which is not among the sources.  A change
    descriptor has a type, the indexes of the cell on the original and on
    the modified side, and an observable diff, of which the navigation
    reads the list of line changes.  [ref] is the identity of the
    JavaScript object: [===] and [indexOf] compare it. *)
Record ICellDiffInfo := {
  ref : nat;
  type : CellChangeType;
  originalCellIndex : option nat;
  modifiedCellIndex : option nat;
  changes : list LineRange
}.

Definition isType (t : CellChangeType) (c : ICellDiffInfo) : bool :=
  match t, type c with
  | Insert, Insert | Delete, Delete | Modified, Modified | Unchanged, Unchanged => true
  | _, _ => false
  end.

(** What the widget asks the notebook editor to show. *)
Inductive Reveal :=
| RevealChangeInView (cellHandle : nat) (lines : option LineRange)
| RevealDeletedCell (originalCellIndex : option nat).

(** [array[i]] for a number [i] *)
Definition at_ {A} (l : list A) (i : Z) : option A :=
  if (i <? 0)%Z then None else l !! Z.to_nat i.

Fixpoint indexOfFrom (l : list ICellDiffInfo) (x : ICellDiffInfo) (i : Z) : Z :=
  match l with
  | [] => (-1)%Z
  | y :: l' => if (ref y =? ref x)%nat then i else indexOfFrom l' x (i + 1)%Z
  end.

(** [array.indexOf(x)] *)
Definition indexOf (l : list ICellDiffInfo) (x : ICellDiffInfo) : Z := indexOfFrom l x 0.

Definition lastChangeIndex (change : ICellDiffInfo) : Z :=
  match type change with
  | Modified => (Z.of_nat (length (changes change)) - 1)%Z
  | _ => 0%Z
  end.

Section Widget.

(** [ChatEditingCodeEditorIntegration], the per-cell text integration, is
    outside these sources: its state is a type [Integration] with the four
    members the widget calls. *)
Variable Integration : Type.
Variable integration_reveal : Integration -> bool -> Integration.
Variable integration_next : Integration -> bool -> bool * Integration.
Variable integration_previous : Integration -> bool -> bool * Integration.
Variable integration_currentIndex : Integration -> Z.

(** [sortCellChanges] of notebookCellChanges.js *)
Variable sortCellChanges : list ICellDiffInfo -> list ICellDiffInfo.

(** The fields the navigation reads and writes.  Cells are named by their
    handle: [cells] is [notebookModel.cells], [viewCells] is
    [notebookEditor.getViewModel()?.viewCells], and
    [cellEditorIntegrations] is keyed by the cell. *)
Record Widget := {
  cellChanges : list ICellDiffInfo;
  currentChange : option (ICellDiffInfo * Z);
  cells : list nat;
  viewCells : option (list nat);
  cellEditorIntegrations : gmap nat Integration;
  deletedCellDecorator : bool;
  revealed : list Reveal
}.

Definition W : Type -> Type := SE Widget.

Definition setCurrentChange (change : ICellDiffInfo) (index : Z) : W unit := fun w =>
  (Ok tt, {| cellChanges := cellChanges w;
             currentChange := Some (change, index);
             cells := cells w;
             viewCells := viewCells w;
             cellEditorIntegrations := cellEditorIntegrations w;
             deletedCellDecorator := deletedCellDecorator w;
             revealed := revealed w |}).

Definition setIntegration (handle : nat) (i : Integration) : W unit := fun w =>
  (Ok tt, {| cellChanges := cellChanges w;
             currentChange := currentChange w;
             cells := cells w;
             viewCells := viewCells w;
             cellEditorIntegrations := <[handle := i]> (cellEditorIntegrations w);
             deletedCellDecorator := deletedCellDecorator w;
             revealed := revealed w |}).

Definition reveal (r : Reveal) : W unit := fun w =>
  (Ok tt, {| cellChanges := cellChanges w;
             currentChange := currentChange w;
             cells := cells w;
             viewCells := viewCells w;
             cellEditorIntegrations := cellEditorIntegrations w;
             deletedCellDecorator := deletedCellDecorator w;
             revealed := revealed w ++ [r] |}).

(** [sortCellChanges(this.cellChanges.get().filter(c => c.type !== 'unchanged'))] *)
Definition sortedChanges (w : Widget) : list ICellDiffInfo :=
  sortCellChanges (List.filter (fun c => negb (isType Unchanged c)) (cellChanges w)).

(** [getCell(modifiedCellIndex)]: the cell's handle with its integration *)
Definition getCell (modifiedCellIndex' : option nat) : W (option (nat * Integration)) :=
  gets (fun w =>
    index ← modifiedCellIndex';
    handle ← cells w !! index;
    i ← cellEditorIntegrations w !! handle;
    Some (handle, i)).

(** [getCellViewModel(change)].  When the notebook has no cell at the
    index, reading [cell.handle] in the callback of [find] is a
    [TypeError], unless there is no view cell to try. *)
Definition getCellViewModel (change : ICellDiffInfo) : W (option nat) := fun w =>
  match type change, modifiedCellIndex change with
  | Delete, _ | _, None => (Ok None, w)
  | _, Some index =>
      match viewCells w with
      | None => (Ok None, w)
      | Some vcs =>
          match cells w !! index with
          | Some handle => (Ok (List.find (Nat.eqb handle) vcs), w)
          | None =>
              match vcs with
              | [] => (Ok None, w)
              | _ :: _ => (Err (Thrown "TypeError"), w)
              end
          end
      end
  end.

Definition revealDeleted (change : ICellDiffInfo) : W bool :=
  deco ← gets deletedCellDecorator;
  (if (deco : bool) then reveal (RevealDeletedCell (originalCellIndex change)) else mret tt) ;;
  setCurrentChange change 0 ;;
  mret true.

(** [_revealChange(change, indexInCell)] *)
Definition _revealChange (change : ICellDiffInfo) (indexInCell : Z) : W bool :=
  match type change with
  | Insert | Modified =>
      let textChange := at_ (changes change) indexInCell in
      cellViewModel ← getCellViewModel change;
      match cellViewModel with
      | Some handle =>
          reveal (RevealChangeInView handle textChange) ;;
          setCurrentChange change indexInCell
      | None => mret tt
      end ;;
      mret true
  | Delete => revealDeleted change
  | Unchanged => mret false
  end.

(** [_revealFirstOrLast(change, firstOrLast)] *)
Definition _revealFirstOrLast (change : ICellDiffInfo) (firstOrLast : bool) : W bool :=
  match type change with
  | Insert | Modified =>
      let index := if firstOrLast || isType Insert change then 0%Z
                   else (Z.of_nat (length (changes change)) - 1)%Z in
      cellIntegration ← getCell (modifiedCellIndex change);
      match cellIntegration with
      | Some (handle, i) =>
          setIntegration handle (integration_reveal i firstOrLast) ;;
          setCurrentChange change index ;;
          mret true
      | None => _revealChange change index
      end
  | Delete => revealDeleted change
  | Unchanged => mret false
  end.

(** The step inside a modified cell that [next] and [previous] try first:
    [cellIntegration.next(false)], or [previous(false)], and on success the
    new current change. *)
Definition withinCell (step : Integration -> bool -> bool * Integration)
    (change : ICellDiffInfo) : W bool :=
  cellIntegration ← getCell (modifiedCellIndex change);
  match cellIntegration with
  | Some (handle, i) =>
      let '(moved, i') := step i false in
      setIntegration handle i' ;;
      if (moved : bool)
      then setCurrentChange change (integration_currentIndex i') ;; mret true
      else mret false
  | None => mret false
  end.

(** The body of [next(wrap)]; [again] is the call [this.next(false)] of
    its last lines. *)
Definition next_body (again : W bool) (wrap : bool) : W bool :=
  changes' ← gets sortedChanges;
  current ← gets currentChange;
  match current with
  | None =>
      match at_ changes' 0 with
      | Some firstChange => _revealFirstOrLast firstChange true
      | None => mret false
      end
  | Some (change, index) =>
      let tail := if wrap then again else mret false in
      match type change with
      | Modified =>
          moved ← withinCell integration_next change;
          if (moved : bool) then mret true
          else
            let isLastChangeInCell := (index =? lastChangeIndex change)%Z in
            let index' := if isLastChangeInCell then 0%Z else (index + 1)%Z in
            let change' := if isLastChangeInCell
                           then at_ changes' (indexOf changes' change + 1)
                           else Some change in
            match change' with
            | Some c => _revealChange c index'
            | None => tail
            end
      | Insert | Delete =>
          match at_ changes' (indexOf changes' change + 1) with
          | Some nextChange => _revealFirstOrLast nextChange true
          | None => tail
          end
      | Unchanged => tail
      end
  end.

(** [next(wrap)].  The only recursive call is [this.next(false)], made
    when [wrap] is true, and a call with [wrap] false makes none. *)
Definition next (wrap : bool) : W bool :=
  next_body (next_body (mret false) false) wrap.

(** [previous(wrap)] *)
Definition previous (wrap : bool) : W bool :=
  changes' ← gets sortedChanges;
  current ← gets currentChange;
  let last := at_ changes' (Z.of_nat (length changes') - 1) in
  match current with
  | None =>
      match last with
      | Some lastChange => _revealFirstOrLast lastChange false
      | None => mret false
      end
  | Some (change, index) =>
      let tail :=
        if wrap then
          match last with
          | Some lastChange => _revealFirstOrLast lastChange false
          | None => mret false
          end
        else mret false in
      match type change with
      | Modified =>
          moved ← withinCell integration_previous change;
          if (moved : bool) then mret true
          else
            let isFirstChangeInCell := (index =? 0)%Z in
            let change' := if isFirstChangeInCell
                           then at_ changes' (indexOf changes' change - 1)
                           else Some change in
            match change' with
            | Some c =>
                let index' := if isFirstChangeInCell then lastChangeIndex c
                              else (index - 1)%Z in
                _revealChange c index'
            | None => tail
            end
      | Insert | Delete =>
          match at_ changes' (indexOf changes' change - 1) with
          | Some prevChange => _revealFirstOrLast prevChange false
          | None => tail
          end
      | Unchanged => tail
      end
  end.

(** [reveal(firstOrLast)]; the name [reveal] is taken above by the log of
    what is shown. *)
Definition reveal' (firstOrLast : bool) : W unit :=
  changes' ← gets sortedChanges;
  match changes' with
  | [] => mret tt
  | _ :: _ =>
      match (if firstOrLast then at_ changes' 0
             else at_ changes' (Z.of_nat (length changes') - 1)) with
      | Some change => _revealFirstOrLast change firstOrLast ;; mret tt
      | None => mret tt
      end
  end.

(** The loop of the autorun that keeps [_currentIndex]: it walks the sorted
    changes, counting one for an inserted or deleted cell and the number of
    line changes for a modified cell, until it meets the current change. *)
Fixpoint indexUpTo (sorted : list ICellDiffInfo) (current : ICellDiffInfo)
    (currentIndex : Z) (index : Z) : Z :=
  match sorted with
  | [] => index
  | change :: rest =>
      if (ref change =? ref current)%nat
      then (if isType Modified change then (index + currentIndex)%Z else index)
      else indexUpTo rest current currentIndex
             (match type change with
              | Insert | Delete => (index + 1)%Z
              | Modified => (index + Z.of_nat (length (changes change)))%Z
              | Unchanged => index
              end)
  end.

(** The value the autorun gives [_currentIndex]. *)
Definition currentIndexOf (w : Widget) : Z :=
  match currentChange w with
  | None => (-1)%Z
  | Some (change, index) => indexUpTo (sortCellChanges (cellChanges w)) change index 0
  end.

(** The cell of an inserted or modified change can be shown: the notebook
    has the cell, and either its editor integration is attached or the
    editor's view has it.  A deleted cell is shown by its decorator. *)
Definition shown (w : Widget) (change : ICellDiffInfo) : bool :=
  match type change with
  | Delete => true
  | Unchanged => false
  | Insert | Modified =>
      match modifiedCellIndex change with
      | Some index =>
          match cells w !! index with
          | Some handle =>
              bool_decide (is_Some (cellEditorIntegrations w !! handle))
              || match viewCells w with
                 | Some vcs => existsb (Nat.eqb handle) vcs
                 | None => false
                 end
          | None => false
          end
      | None => false
      end
  end.

End Widget.

(** The number of positions a change contributes to the navigation. *)
Definition positions (change : ICellDiffInfo) : Z :=
  match type change with
  | Insert | Delete => 1%Z
  | Modified => Z.of_nat (length (changes change))
  | Unchanged => 0%Z
  end.

Definition totalPositions (l : list ICellDiffInfo) : Z :=
  fold_right (fun change n => (positions change + n)%Z) 0%Z l.

Arguments cellChanges {Integration} _.
Arguments currentChange {Integration} _.
Arguments cells {Integration} _.
Arguments viewCells {Integration} _.
Arguments cellEditorIntegrations {Integration} _.
Arguments deletedCellDecorator {Integration} _.
Arguments revealed {Integration} _.

End NotebookNav.

(** ** The classes of prompt resolve errors *)
Module PromptErrorClasses.

(** The concrete classes; [ParseError] and [ResolveError] are abstract. *)
Inductive ErrorClass :=
| FailedToResolveContentsStream
| OpenFailed
| RecursiveReference
| NotPromptFile
| FolderReference.

#[export] Instance ErrorClass_eq_dec : EqDecision ErrorClass.
Proof. solve_decision. Defined.

(** The concrete class a class extends, if any. *)
Definition extends (c : ErrorClass) : option ErrorClass :=
  match c with
  | OpenFailed => Some FailedToResolveContentsStream
  | FolderReference => Some NotPromptFile
  | _ => None
  end.

(** [x instanceof C] for an [x] of class [c]: [C] is found on the
    prototype chain of [x], which has at most two concrete classes. *)
Definition instanceOf (c C : ErrorClass) : bool :=
  bool_decide (c = C)
  || match extends c with
     | Some parent => bool_decide (parent = C)
     | None => false
     end.

(** The values [sameTypeAs] may be given. *)
Inductive Value :=
| Null
| Undefined
| Other
| AnError (c : ErrorClass).

(** [ParseError.sameTypeAs(other)], for [this] of class [this_]. *)
Definition sameTypeAs (this_ : ErrorClass) (other : Value) : bool :=
  match other with
  | Null | Undefined => false
  | Other => false
  | AnError c => instanceOf c this_
  end.

(** The parts of a [URI] the messages read. *)
Record Uri := {
  path : string;
  fsPath : string
}.

(** A JavaScript string used as a condition. *)
Definition truthy (s : string) : bool := negb (String.eqb s "").

(** The message [new NotPromptFile(uri, message)] gives to [Error]. *)
Definition NotPromptFile_message (uri : Uri) (message : string) : string :=
  let suffix := if truthy message then ": " +:+ message else "" in
  "Resource at " +:+ path uri +:+ " is not a prompt file" +:+ suffix.

(** The message of [new FolderReference(uri, message)], which hands its
    own text to the constructor of [NotPromptFile]. *)
Definition FolderReference_message (uri : Uri) (message : string) : string :=
  let suffix := if truthy message then ": " +:+ message else "" in
  NotPromptFile_message uri ("Entity at '" +:+ path uri +:+ "' is a folder" +:+ suffix).

End PromptErrorClasses.

(** ** The new edit session action of chatClearActions.ts *)
Module ChatActions.

(** [WorkingSetEntryState] is declared in chatEditingService.js; the action
    names [Modified] only, [Decided] stands for every other member. *)
Inductive WorkingSetEntryState := Modified | Decided.

Definition isModified (state : WorkingSetEntryState) : bool :=
  match state with Modified => true | Decided => false end.

(** What the user does with the dialog of [dialogService.prompt]: one of
    the two buttons, whose [run] gives the result [true], or cancel, which
    gives no result. *)
Inductive Choice := AcceptAndContinue | DiscardAndContinue | Cancel.

Record Widget := {
  widget_id : nat;
  relatedFiles : bool
}.

(** The argument of the action.  [sessionId] is set in a chat view title
    context, for which [isChatViewTitleActionContext] holds. *)
Record Context := {
  sessionId : option string;
  inputValue : option string;
  agentMode : option bool;
  isPartialQuery : option bool
}.

Record Env := {
  getWidgetBySessionId : string -> option Widget;
  editsViewWidget : option Widget
}.

(** The calls the action makes on its collaborators, in order. *)
Inductive Effect :=
| Prompt (pending : nat)
| SessionAccept
| SessionReject
| OpenEditsView
| PlayClearSignal
| SessionStop
| WidgetClear (w : Widget)
| AttachmentModelClear (w : Widget)
| RelatedFilesClear (w : Widget)
| FocusInput (w : Widget)
| ToggleToolsAgentMode (mode : bool)
| SetInput (w : Widget) (value : string)
| AcceptInput (w : Widget) (value : string).

(** [_handleCurrentEditingSession(currentEditingSession, dialogService)];
    the session is given by the states of its entries. *)
Definition _handleCurrentEditingSession (currentEditingSession : option (list WorkingSetEntryState))
    (choice : Choice) : bool * list Effect :=
  match currentEditingSession with
  | Some currentEdits =>
      if (0 <? length currentEdits)%nat then
        let undecidedEdits := List.filter isModified currentEdits in
        if (0 <? length undecidedEdits)%nat then
          match choice with
          | AcceptAndContinue => (true, [Prompt (length undecidedEdits); SessionAccept])
          | DiscardAndContinue => (true, [Prompt (length undecidedEdits); SessionReject])
          | Cancel => (false, [Prompt (length undecidedEdits)])
          end
        else (true, [])
      else (true, [])
  | None => (true, [])
  end.

Definition isChatViewTitleActionContext (context : option Context) : option string :=
  context ≫= sessionId.

(** What is done with the context once the widget is cleared. *)
Definition applyContext (isChatViewTitleAction : bool) (widget : Widget)
    (context : option Context) : list Effect :=
  match context with
  | None => []
  | Some c =>
      (match agentMode c with
       | Some mode => if isChatViewTitleAction then [] else [ToggleToolsAgentMode mode]
       | None => []
       end)
      ++ match inputValue c with
         | Some value =>
             if String.eqb value "" then []
             else match isPartialQuery c with
                  | Some true => [SetInput widget value]
                  | _ => [AcceptInput widget value]
                  end
         | None => []
         end
  end.

(** [NewEditSessionAction.runEditingSessionAction] *)
Definition runEditingSessionAction (env : Env) (editingSession : list WorkingSetEntryState)
    (choice : Choice) (context : option Context) : list Effect :=
  let '(proceed, asked) := _handleCurrentEditingSession (Some editingSession) choice in
  if negb proceed then asked
  else
    let '(widget, opened) :=
      match isChatViewTitleActionContext context with
      | Some id => (getWidgetBySessionId env id, [])
      | None => (editsViewWidget env, [OpenEditsView])
      end in
    asked ++ opened ++ [PlayClearSignal]
    ++ match widget with
       | None => []
       | Some w =>
           [SessionStop; WidgetClear w; AttachmentModelClear w]
           ++ (if relatedFiles w then [RelatedFilesClear w] else [])
           ++ [FocusInput w]
           ++ applyContext (bool_decide (is_Some (isChatViewTitleActionContext context)))
                w context
       end.

(** The calls made before the cleared signal is played. *)
Definition preparation (x : Effect) : bool :=
  match x with
  | Prompt _ | SessionAccept | SessionReject | OpenEditsView => true
  | _ => false
  end.

Definition pending (editingSession : list WorkingSetEntryState) : nat :=
  length (List.filter isModified editingSession).

End ChatActions.

(** ** Concrete inputs used below *)
Module Examples.
Import Mcp.Workbench.

Definition env0 : Env :=
  {| currentProfile := {| isDefault := true; p_mcpResource := "user:/mcp.json";
                          extensionsResource := "user:/extensions.json" |};
     profiles := [];
     getRemoteProfile := fun p => p;
     getRemoteProfiles := [];
     workspace_configuration := None;
     remoteMcpManagementService := false |}.

Definition serverA : ILocalMcpServer :=
  {| name := "a"; mcpResource := "user:/mcp.json"; config := "" |}.

Definition serverB : ILocalMcpServer :=
  {| name := "b"; mcpResource := "file:///w/.vscode/mcp.json"; config := "" |}.

(** A window with a remote connection, on a profile that is not the
    default one and has a counterpart on the remote side. *)
Definition profileP : IUserDataProfile :=
  {| isDefault := false; p_mcpResource := "user:/profiles/p/mcp.json";
     extensionsResource := "user:/profiles/p/extensions.json" |}.

Definition env1 : Env :=
  {| currentProfile := profileP;
     profiles := [profileP];
     getRemoteProfile := fun p =>
       {| isDefault := isDefault p; p_mcpResource := "remote:/profiles/p/mcp.json";
          extensionsResource := "remote:/profiles/p/extensions.json" |};
     getRemoteProfiles := [];
     workspace_configuration := None;
     remoteMcpManagementService := true |}.

Definition serverR : ILocalMcpServer :=
  {| name := "r"; mcpResource := "remote:/profiles/p/extensions.json"; config := "" |}.

Definition services1 : Services :=
  {| user_getInstalled := fun _ => Ok [serverA];
     remote_getInstalled := fun _ => Ok [serverR];
     workspace_getInstalled := Ok [serverB] |}.



Definition resourceW : URI := "file:///w/.vscode/mcp.json".

Definition folderW : IWorkspaceFolder :=
  {| folder_uri := "file:///w"; toResource := fun path => "file:///w/" +:+ path |}.

Definition resourceY : URI := "file:///y/.vscode/mcp.json".

Definition folderY : IWorkspaceFolder :=
  {| folder_uri := "file:///y"; toResource := fun path => "file:///y/" +:+ path |}.

Definition serverY : ILocalMcpServer :=
  {| name := "b"; mcpResource := resourceY; config := "" |}.

Definition descriptor : IMcpServer := {| mcp_name := "srv"; mcp_config := "" |}.

(** A per-resource [install] that stores the descriptor under the
    service's resource. *)
Definition storing (item : Mcp.Workspace.ServiceItem) (server : IMcpServer)
    (options : InstallOptions) : Mcp.Workspace.M ILocalMcpServer :=
  mret {| name := mcp_name server;
          mcpResource := Mcp.Workspace.service_mcpResource item;
          config := mcp_config server |}.

(** The aggregator after the folder [folderW], with [serverB] installed,
    was added to an empty workspace. *)
Definition oneFolder : Mcp.Workspace.State :=
  snd (Mcp.Workspace.addWorkspaceService resourceW WORKSPACE_FOLDER (Ok [serverB])
         Mcp.Workspace.initial).

(** The folder [folderW] is added with [serverB] installed, then
    removed while the fetch of its servers fails. *)
Definition addThenFailingRemove : list Mcp.Workspace.FolderEvent :=
  [Mcp.Workspace.Added resourceW WORKSPACE_FOLDER (Ok [serverB]);
   Mcp.Workspace.Removed resourceW (Err (Thrown "EIO"))].

(** Two folders are added together and the fetch of the second settles
    first; a third folder, whose fetch fails, is added in between; then
    the first folder is removed. *)
Definition overlappingFolders : list Mcp.Workspace.Step :=
  [Mcp.Workspace.Call (Mcp.Workspace.Added resourceW WORKSPACE_FOLDER (Ok [serverB]));
   Mcp.Workspace.Call (Mcp.Workspace.Added resourceY WORKSPACE_FOLDER (Ok [serverY]));
   Mcp.Workspace.Settle 1;
   Mcp.Workspace.Call (Mcp.Workspace.Added "file:///x/.vscode/mcp.json" WORKSPACE_FOLDER
                         (Err (Thrown "EIO")));
   Mcp.Workspace.Settle 0;
   Mcp.Workspace.Settle 0;
   Mcp.Workspace.Call (Mcp.Workspace.Removed resourceW (Ok [serverB]));
   Mcp.Workspace.Settle 0].

(** The folder [folderW] is added, removed and added again before the
    first fetch settles. *)
Definition racingRegistrations : list Mcp.Workspace.Step :=
  [Mcp.Workspace.Call (Mcp.Workspace.Added resourceW WORKSPACE_FOLDER (Ok [serverB]));
   Mcp.Workspace.Call (Mcp.Workspace.Removed resourceW (Ok [serverB]));
   Mcp.Workspace.Call (Mcp.Workspace.Added resourceW WORKSPACE_FOLDER (Ok [serverB]));
   Mcp.Workspace.Settle 0;
   Mcp.Workspace.Settle 0].

(** A notebook with one inserted cell and one deleted cell, no cell
    editor attached, shown in an editor whose view has the inserted cell. *)
Definition changeA : NotebookNav.ICellDiffInfo :=
  {| NotebookNav.ref := 1; NotebookNav.type := NotebookNav.Insert;
     NotebookNav.originalCellIndex := None; NotebookNav.modifiedCellIndex := Some 0;
     NotebookNav.changes := [] |}.

Definition changeB : NotebookNav.ICellDiffInfo :=
  {| NotebookNav.ref := 2; NotebookNav.type := NotebookNav.Delete;
     NotebookNav.originalCellIndex := Some 1; NotebookNav.modifiedCellIndex := None;
     NotebookNav.changes := [] |}.

Definition notebook (current : option (NotebookNav.ICellDiffInfo * Z))
    (shown : list NotebookNav.Reveal) : NotebookNav.Widget unit :=
  {| NotebookNav.cellChanges := [changeA; changeB];
     NotebookNav.currentChange := current;
     NotebookNav.cells := [10];
     NotebookNav.viewCells := Some [10];
     NotebookNav.cellEditorIntegrations := ∅;
     NotebookNav.deletedCellDecorator := true;
     NotebookNav.revealed := shown |}.

(** [next] and [previous] over changes that are already sorted and a text
    integration that has nowhere to go. *)
Definition next0 : bool -> NotebookNav.W unit bool :=
  NotebookNav.next unit (fun i _ => i) (fun i _ => (false, i)) (fun _ => 0%Z) (fun l => l).

Definition previous0 : bool -> NotebookNav.W unit bool :=
  NotebookNav.previous unit (fun i _ => i) (fun i _ => (false, i)) (fun _ => 0%Z) (fun l => l).

(** The aggregator with one folder, [folderY], and its server. *)
Definition yFolder : Mcp.Workspace.State :=
  snd (Mcp.Workspace.addWorkspaceService resourceY WORKSPACE_FOLDER (Ok [serverY])
         Mcp.Workspace.initial).

Definition chatWidget : ChatActions.Widget :=
  {| ChatActions.widget_id := 1; ChatActions.relatedFiles := true |}.

Definition chatEnv : ChatActions.Env :=
  {| ChatActions.getWidgetBySessionId := fun _ => None;
     ChatActions.editsViewWidget := Some chatWidget |}.

Definition chatContext : ChatActions.Context :=
  {| ChatActions.sessionId := None;
     ChatActions.inputValue := Some "fix the tests";
     ChatActions.agentMode := Some true;
     ChatActions.isPartialQuery := None |}.

(** A notebook with an inserted cell, a modified cell with two line
    changes, and a deleted cell. *)
Definition changeM : NotebookNav.ICellDiffInfo :=
  {| NotebookNav.ref := 3; NotebookNav.type := NotebookNav.Modified;
     NotebookNav.originalCellIndex := Some 0; NotebookNav.modifiedCellIndex := Some 1;
     NotebookNav.changes :=
       [ {| NotebookNav.startLineNumber := 1; NotebookNav.endLineNumberExclusive := 2 |};
         {| NotebookNav.startLineNumber := 5; NotebookNav.endLineNumberExclusive := 7 |} ] |}.

Definition notebookM (current : option (NotebookNav.ICellDiffInfo * Z))
    : NotebookNav.Widget unit :=
  {| NotebookNav.cellChanges := [changeA; changeM; changeB];
     NotebookNav.currentChange := current;
     NotebookNav.cells := [10; 11];
     NotebookNav.viewCells := Some [10; 11];
     NotebookNav.cellEditorIntegrations := ∅;
     NotebookNav.deletedCellDecorator := true;
     NotebookNav.revealed := [] |}.

End Examples.

(** * Properties *)

Lemma isEqual_true (a b : URI) : isEqual a b = true <-> a = b.
Proof. apply String.eqb_eq. Qed.


(** ** The facade *)
Module WorkbenchFacts.
Import Mcp.Workbench Examples.

Lemma untagged_toWorkspaceMcpServer server sc :
  untagged (toWorkspaceMcpServer server sc) = server.
Proof. by destruct server. Qed.

Lemma pushServers_app sc servers installed :
  pushServers sc servers installed
  = installed ++ map (fun server => toWorkspaceMcpServer server sc) servers.
Proof.
  unfold pushServers. revert installed.
  induction servers as [|s servers IH]; intros installed; simpl.
  - by rewrite app_nil_r.
  - rewrite IH. by rewrite <- app_assoc.
Qed.

Lemma map_untagged_tag sc (servers : list ILocalMcpServer) :
  map untagged (map (fun server => toWorkspaceMcpServer server sc) servers) = servers.
Proof.
  induction servers as [|s servers IH]; simpl; [done|].
  by rewrite untagged_toWorkspaceMcpServer, IH.
Qed.

Lemma map_scope_tag sc (servers : list ILocalMcpServer) :
  map scope (map (fun server => toWorkspaceMcpServer server sc) servers)
  = replicate (length servers) (Some sc).
Proof. induction servers as [|s servers IH]; simpl; [done|]. by rewrite IH. Qed.

(** C3: when the three queries succeed with [u], [r] and [w] (the remote
    one counting as the empty list when there is no remote service),
    [getInstalled()] succeeds with the servers of [u], then [r], then [w],
    in that order, each tagged with the one scope of the service it came
    from: [User], [RemoteUser], [Workspace]. *)
Theorem getInstalled_concat_tagged (env : Env) (sv : Services)
    (u r w : list ILocalMcpServer) :
  user_getInstalled sv (p_mcpResource (currentProfile env)) = Ok u ->
  (remoteMcpManagementService env = true ->
     remote_getInstalled sv (getRemoteMcpResource env None) = Ok r) ->
  (remoteMcpManagementService env = false -> r = []) ->
  workspace_getInstalled sv = Ok w ->
  exists installed,
    getInstalled env sv = Ok installed
    /\ installed = map (fun s => toWorkspaceMcpServer s User) u
                ++ map (fun s => toWorkspaceMcpServer s RemoteUser) r
                ++ map (fun s => toWorkspaceMcpServer s Workspace) w
    /\ map untagged installed = u ++ r ++ w
    /\ map scope installed = replicate (length u) (Some User)
                          ++ replicate (length r) (Some RemoteUser)
                          ++ replicate (length w) (Some Workspace).
Proof.
  intros Hu Hr Hnr Hw.
  eexists. split; [|split; [reflexivity|]].
  - unfold getInstalled. rewrite Hu, Hw.
    destruct (remoteMcpManagementService env) eqn:Hrem.
    + rewrite (Hr eq_refl). rewrite !pushServers_app. simpl.
      by rewrite <- app_assoc.
    + rewrite (Hnr eq_refl). rewrite !pushServers_app. simpl.
      by rewrite <- app_assoc.
  - rewrite !map_app, !map_untagged_tag, !map_scope_tag. done.
Qed.

Lemma getInstalled_concat_tagged_witness :
  exists installed,
    getInstalled env1 services1 = Ok installed
    /\ installed = [toWorkspaceMcpServer serverA User;
                    toWorkspaceMcpServer serverR RemoteUser;
                    toWorkspaceMcpServer serverB Workspace]
    /\ map untagged installed = [serverA; serverR; serverB]
    /\ map scope installed = [Some User; Some RemoteUser; Some Workspace].
Proof.
  apply (getInstalled_concat_tagged env1 services1 [serverA] [serverR] [serverB]).
  - reflexivity.
  - reflexivity.
  - simpl. intros H. discriminate H.
  - reflexivity.
Defined.

(** C6: [install] with the remote user target, when there is no remote
    service, throws the illegal target error; it returns no call to any
    underlying service. *)
Theorem install_remote_without_connection (standalone : string) (env : Env)
    (server : IMcpServer) (options : InstallOptions) :
  opt_target options = Some (TConfiguration USER_REMOTE) ->
  remoteMcpManagementService env = false ->
  install standalone env server (Some options) = Err IllegalTarget
  /\ forall call, install standalone env server (Some options) <> Ok call.
Proof.
  intros Ht Hr.
  assert (install standalone env server (Some options) = Err IllegalTarget) as E.
  { unfold install. simpl. rewrite Ht, Hr. reflexivity. }
  split; [exact E|]. intros call. rewrite E. discriminate.
Qed.

Lemma install_remote_without_connection_witness :
  install ".vscode/mcp.json" env0 {| mcp_name := "srv"; mcp_config := "" |}
    (Some {| opt_mcpResource := None; opt_target := Some (TConfiguration USER_REMOTE) |})
  = Err IllegalTarget
  /\ forall call,
      install ".vscode/mcp.json" env0 {| mcp_name := "srv"; mcp_config := "" |}
        (Some {| opt_mcpResource := None; opt_target := Some (TConfiguration USER_REMOTE) |})
      <> Ok call.
Proof.
  apply install_remote_without_connection; reflexivity.
Defined.

(** *** Re-emission of the underlying events *)

Lemma fold_pushResult sc (keep : URI -> bool) (e : list InstallMcpServerResult) acc :
  fold_left (pushResult sc keep) e acc
  = (fst acc ++ map (toWorkbenchResult sc) e,
     snd acc ++ map (toWorkbenchResult sc)
                  (List.filter (fun result => keep (ir_mcpResource result)) e)).
Proof.
  revert acc. induction e as [|x e IH]; intros [all cur]; simpl.
  - by rewrite !app_nil_r.
  - rewrite IH. unfold pushResult at 1. simpl.
    destruct (keep (ir_mcpResource x)); simpl; by rewrite <- ?app_assoc.
Qed.




(** The batches of the workspace aggregator and of the remote service do
    not reach the all-scopes stream: both listeners fire
    [_onDidInstallMcpServersInCurrentProfile] where the listener of the
    user service fires [_onDidInstallMcpServers]. *)
Lemma batch_of_workspace_or_remote_not_on_all_scopes (env : Env)
    (e : list InstallMcpServerResult) :
  onAllScopes (reemit env Workspace (DidInstallMcpServers e)) = []
  /\ onAllScopes (reemit env RemoteUser (DidInstallMcpServers e)) = [].
Proof.
  split; simpl; [done|].
  destruct (remoteMcpManagementService env); [|done].
  unfold remote_onDidInstallMcpServers. rewrite fold_pushResult. simpl.
  by destruct (List.filter _ e).
Qed.

End WorkbenchFacts.

(** ** The workspace aggregator *)
Module WorkspaceFacts.
Import Mcp.Workspace Examples.

Lemma state_eta (st : State) :
  {| allMcpServers := allMcpServers st;
     workspaceMcpManagementServices := workspaceMcpManagementServices st;
     workspaceConfiguration := workspaceConfiguration st;
     history := history st |} = st.
Proof. by destruct st. Qed.

(** Runs the monadic primitives of a handler on the state at hand. *)
Ltac run :=
  repeat progress
    (unfold mbind, mret, SE_bind, SE_ret, gets, await, throw, try_catch,
       effect, fire, setAllMcpServers, setServices, setWorkspaceConfiguration;
     simpl).

Lemma forOf_effect {A} (f : A -> Effect) (xs : list A) (st : State) :
  forOf xs (fun x => effect (f x)) st
  = (Ok tt, {| allMcpServers := allMcpServers st;
               workspaceMcpManagementServices := workspaceMcpManagementServices st;
               workspaceConfiguration := workspaceConfiguration st;
               history := history st ++ map f xs |}).
Proof.
  revert st. induction xs as [|x xs IH]; intros st; simpl.
  - rewrite app_nil_r, state_eta. reflexivity.
  - unfold mbind, SE_bind. simpl. rewrite IH. simpl.
    by rewrite <- app_assoc.
Qed.

Lemma filter_keeps_all {A} (p : A -> bool) (l : list A) :
  (forall x, p x = true) -> List.filter p l = l.
Proof.
  intros Hp. induction l as [|x l IH]; simpl; [done|]. by rewrite Hp, IH.
Qed.

Lemma filter_keeps_all_on {A} (p : A -> bool) (l : list A) :
  Forall (fun x => p x = true) l -> List.filter p l = l.
Proof.
  induction l as [|x l IH]; simpl; [done|].
  rewrite Forall_cons. intros [Hx Hl]. by rewrite Hx, IH.
Qed.

(** [addWorkspaceService] in one equation. *)
Lemma addWorkspaceService_run r target f (st : State) :
  addWorkspaceService r target f st
  = (Ok tt,
     match workspaceMcpManagementServices st !! r with
     | Some _ => st
     | None =>
         {| allMcpServers := allMcpServers st ++ fetched f;
            workspaceMcpManagementServices :=
              <[r := {| service_target := target; service_mcpResource := r |}]>
                (workspaceMcpManagementServices st);
            workspaceConfiguration := workspaceConfiguration st;
            history := history st
              ++ match f with
                 | Ok [] => []
                 | Ok l => [Fire (onDidInstallMcpServers (map toInstallResult l))]
                 | Err e => [LogWarn r e]
                 end
              ++ [RegistrySet r] |}
     end).
Proof.
  unfold addWorkspaceService. run.
  destruct (workspaceMcpManagementServices st !! r) as [item|] eqn:E; run.
  - reflexivity.
  - destruct f as [l|e]; run.
    + destruct l as [|s l]; run.
      * by rewrite !app_nil_r.
      * by rewrite <- app_assoc.
    + by rewrite app_nil_r, <- app_assoc.
Qed.

(** [removeWorkspaceService] in one equation. *)
Lemma removeWorkspaceService_run r f (st : State) :
  removeWorkspaceService r f st
  = (Ok tt,
     match workspaceMcpManagementServices st !! r with
     | None => st
     | Some _ =>
         {| allMcpServers :=
              List.filter (fun server => negb (drained (fetched f) server)) (allMcpServers st);
            workspaceMcpManagementServices := delete r (workspaceMcpManagementServices st);
            workspaceConfiguration := workspaceConfiguration st;
            history := history st
              ++ match f with
                 | Ok l => uninstallEvents l
                 | Err e => [LogWarn r e]
                 end
              ++ [RegistryDelete r; Dispose r] |}
     end).
Proof.
  unfold removeWorkspaceService, mbind, SE_bind, gets. simpl.
  destruct (workspaceMcpManagementServices st !! r) as [item|] eqn:E; simpl; [|done].
  unfold try_catch, await, mbind, SE_bind. simpl.
  destruct f as [l|e]; simpl.
  - unfold fire.
    rewrite (forOf_effect (fun server => Fire (onDidUninstallMcpServer (toUninstallEvent server)))).
    run. unfold uninstallEvents, drained. by rewrite <- !app_assoc.
  - run. rewrite filter_keeps_all by done. by rewrite <- !app_assoc.
Qed.



(** C5: [install] throws, and leaves the aggregate list, the map and all
    else as they were, when [options.mcpResource] is unset or names no
    registered resource; otherwise its outcome is that of the [install] of
    the service registered for the resource, called with the same server
    and options. *)
Theorem install_requires_registered_resource
    (service_install : ServiceItem -> IMcpServer -> InstallOptions -> M ILocalMcpServer)
    (server : IMcpServer) (options : option InstallOptions) (st : State) :
  (options ≫= opt_mcpResource = None ->
     install service_install server options st = (Err McpResourceRequired, st))
  /\ (forall r,
        options ≫= opt_mcpResource = Some r ->
        workspaceMcpManagementServices st !! r = None ->
        install service_install server options st = (Err (NoManagementService r), st))
  /\ (forall o r item,
        options = Some o ->
        opt_mcpResource o = Some r ->
        workspaceMcpManagementServices st !! r = Some item ->
        install service_install server options st = service_install item server o st).
Proof.
  unfold install. repeat split.
  - destruct options as [o|]; simpl; [|done].
    intros ->. done.
  - intros r. destruct options as [o|]; simpl; [|done].
    intros -> Hr. run. by rewrite Hr.
  - intros o r item -> -> Hr. run. by rewrite Hr.
Qed.

Lemma install_requires_registered_resource_witness :
  install storing descriptor None oneFolder = (Err McpResourceRequired, oneFolder)
  /\ install storing descriptor
       (Some {| opt_mcpResource := Some "file:///x/.vscode/mcp.json"; opt_target := None |})
       oneFolder
     = (Err (NoManagementService "file:///x/.vscode/mcp.json"), oneFolder)
  /\ install storing descriptor
       (Some {| opt_mcpResource := Some resourceW; opt_target := None |}) oneFolder
     = (Ok {| name := "srv"; mcpResource := resourceW; config := "" |}, oneFolder).
Proof.
  split; [|split].
  - apply (proj1 (install_requires_registered_resource storing descriptor None oneFolder)).
    reflexivity.
  - apply (proj1 (proj2 (install_requires_registered_resource storing descriptor _ oneFolder))).
    + reflexivity.
    + vm_compute. reflexivity.
  - rewrite (proj2 (proj2 (install_requires_registered_resource storing descriptor _ oneFolder))
               {| opt_mcpResource := Some resourceW; opt_target := None |} resourceW
               {| service_target := WORKSPACE_FOLDER; service_mcpResource := resourceW |}
               eq_refl eq_refl).
    + reflexivity.
    + vm_compute. reflexivity.
Defined.

(** C9: [installFromGallery] of the workspace aggregator and of the
    per-resource workspace service throw "Not supported" whatever the
    state, and leave it as it was; the facade hands every gallery install
    to the user scope service. *)
Theorem installFromGallery_not_supported :
  (forall st : State, installFromGallery st = (Err NotSupported, st))
  /\ (forall (S : Type) (st : S),
        Mcp.WorkspaceResource.installFromGallery st = (Err NotSupported, st))
  /\ (forall env server options,
        exists o, Mcp.Workbench.installFromGallery env server options
                  = Ok (Mcp.Workbench.user_installFromGallery server o)).
Proof.
  repeat split. intros env server options. eexists. reflexivity.
Qed.

Lemma addWorkspaceService_dom r target f (st : State) :
  dom (workspaceMcpManagementServices (snd (addWorkspaceService r target f st)))
  = dom (workspaceMcpManagementServices st) ∪ {[r]}.
Proof.
  rewrite addWorkspaceService_run. simpl.
  destruct (workspaceMcpManagementServices st !! r) as [item|] eqn:E; simpl.
  - apply (elem_of_dom_2 (D := gset string)) in E. set_solver.
  - rewrite dom_insert_L. set_solver.
Qed.

Lemma removeWorkspaceService_dom r f (st : State) :
  dom (workspaceMcpManagementServices (snd (removeWorkspaceService r f st)))
  = dom (workspaceMcpManagementServices st) ∖ {[r]}.
Proof.
  rewrite removeWorkspaceService_run. simpl.
  destruct (workspaceMcpManagementServices st !! r) as [item|] eqn:E; simpl.
  - by rewrite dom_delete_L.
  - apply (not_elem_of_dom (D := gset string)) in E. set_solver.
Qed.

(** The second half of a registration in one equation. *)
Lemma addWorkspaceService_resume_run r target f (st : State) :
  addWorkspaceService_resume r target f st
  = (Ok tt,
     {| allMcpServers := allMcpServers st ++ fetched f;
        workspaceMcpManagementServices :=
          <[r := {| service_target := target; service_mcpResource := r |}]>
            (workspaceMcpManagementServices st);
        workspaceConfiguration := workspaceConfiguration st;
        history := history st ++ registrationEffects r f |}).
Proof.
  unfold addWorkspaceService_resume, registrationEffects. run.
  destruct f as [l|e]; run.
  - destruct l as [|s l]; run.
    + by rewrite !app_nil_r.
    + by rewrite <- app_assoc.
  - by rewrite app_nil_r, <- app_assoc.
Qed.

(** The second half of a removal in one equation. *)
Lemma removeWorkspaceService_resume_run r f (st : State) :
  removeWorkspaceService_resume r f st
  = (Ok tt,
     {| allMcpServers :=
          List.filter (fun server => negb (drained (fetched f) server)) (allMcpServers st);
        workspaceMcpManagementServices := delete r (workspaceMcpManagementServices st);
        workspaceConfiguration := workspaceConfiguration st;
        history := history st ++ removalEffects r f |}).
Proof.
  unfold removeWorkspaceService_resume, removalEffects.
  unfold try_catch, await, mbind, SE_bind. simpl.
  destruct f as [l|e]; simpl.
  - unfold fire.
    rewrite (forOf_effect (fun server => Fire (onDidUninstallMcpServer (toUninstallEvent server)))).
    run. unfold uninstallEvents, drained. by rewrite <- !app_assoc.
  - run. rewrite filter_keeps_all by done. by rewrite <- !app_assoc.
Qed.

(** A handler that nothing interrupts is its first half followed, when it
    waits, by its second half. *)
Lemma addWorkspaceService_halves r target f (st : State) :
  addWorkspaceService r target f st
  = match addWorkspaceService_begin r st with
    | (Ok true, st') => addWorkspaceService_resume r target f st'
    | (_, st') => (Ok tt, st')
    end.
Proof.
  rewrite addWorkspaceService_run. unfold addWorkspaceService_begin. run.
  destruct (workspaceMcpManagementServices st !! r) as [item|] eqn:E; simpl; [done|].
  by rewrite addWorkspaceService_resume_run.
Qed.

Lemma removeWorkspaceService_halves r f (st : State) :
  removeWorkspaceService r f st
  = match removeWorkspaceService_begin r st with
    | (Ok true, st') => removeWorkspaceService_resume r f st'
    | (_, st') => (Ok tt, st')
    end.
Proof.
  rewrite removeWorkspaceService_run. unfold removeWorkspaceService_begin. run.
  destruct (workspaceMcpManagementServices st !! r) as [item|] eqn:E; simpl; [|done].
  by rewrite removeWorkspaceService_resume_run.
Qed.

Lemma registered_true (st : State) (r : URI) :
  registered st r = true <-> r ∈ dom (workspaceMcpManagementServices st).
Proof.
  unfold registered. rewrite bool_decide_eq_true.
  by rewrite (elem_of_dom (D := gset string)).
Qed.

Lemma settleAll_run (resumed : list (M unit)) (st : State) :
  settleAll resumed st = (Ok tt, fold_left (fun st' r => snd (r st')) resumed st).
Proof.
  revert st. induction resumed as [|r resumed IH]; intros st; simpl; [done|].
  run. by rewrite IH.
Qed.

Lemma fold_left_runs {A} (f : A -> M unit) (l : list A) (st : State) :
  fold_left (fun st' p => snd (p st')) (map f l) st
  = fold_left (fun st' x => snd (f x st')) l st.
Proof. revert st. induction l as [|x l IH]; intros st; simpl; [done|]. apply IH. Qed.

(** The order of settling rearranges the handlers that wait, and every
    rearrangement is the one of some order. *)
Lemma arrange_Permutation {A} (order : list nat) (waiting : list A) :
  arrange order waiting ≡ₚ waiting.
Proof.
  revert waiting. induction order as [|n order IH]; intros waiting; simpl; [done|].
  destruct (waiting !! n) as [r|] eqn:E; [|apply IH].
  rewrite IH. symmetry. by apply delete_Permutation.
Qed.

Lemma arrange_any {A} (waiting settled : list A) :
  settled ≡ₚ waiting -> exists order, arrange order waiting = settled.
Proof.
  revert waiting. induction settled as [|r settled IH]; intros waiting Hp.
  - apply Permutation_nil_l in Hp as ->. by exists [].
  - assert (r ∈ waiting) as Hin by (rewrite <- Hp; left).
    apply list_elem_of_lookup in Hin as [n Hn].
    destruct (IH (delete n waiting)) as [order Horder].
    { apply (Permutation_cons_inv (a := r)). rewrite Hp. by apply delete_Permutation. }
    exists (n :: order). simpl. by rewrite Hn, Horder.
Qed.

Lemma arrange_map {A B} (f : A -> B) (order : list nat) (waiting : list A) :
  arrange order (map f waiting) = map f (arrange order waiting).
Proof.
  revert waiting. induction order as [|n order IH]; intros waiting; simpl; [done|].
  change (map f waiting) with (f <$> waiting).
  rewrite list_lookup_fmap.
  destruct (waiting !! n) as [r|] eqn:E; simpl.
  - f_equal. rewrite <- IH. f_equal.
    rewrite (delete_take_drop waiting), (delete_take_drop (f <$> waiting)).
    by rewrite fmap_app, fmap_take, fmap_drop.
  - apply IH.
Qed.

(** The removals of a folder change that wait for a fetch are those of
    the folders registered when the change arrives. *)
Lemma startAll_removals standalone
    (removed : list (IWorkspaceFolder * Result (list ILocalMcpServer))) (st : State) :
  startAll (map (fun fr =>
      (removeWorkspaceService_begin (toResource (fst fr) standalone),
       removeWorkspaceService_resume (toResource (fst fr) standalone) (snd fr))) removed) st
  = (Ok (map (fun fr => removeWorkspaceService_resume (toResource (fst fr) standalone) (snd fr))
           (List.filter (fun fr => registered st (toResource (fst fr) standalone)) removed)),
     st).
Proof.
  induction removed as [|fr removed IH]; simpl; [done|].
  unfold mbind, SE_bind. simpl. rewrite IH. simpl.
  unfold registered.
  by destruct (workspaceMcpManagementServices st !! toResource (fst fr) standalone).
Qed.

(** The registrations that wait are those of the folders not registered
    then. *)
Lemma startAll_registrations standalone
    (added : list (IWorkspaceFolder * Result (list ILocalMcpServer))) (st : State) :
  startAll (map (fun fr =>
      (addWorkspaceService_begin (toResource (fst fr) standalone),
       addWorkspaceService_resume (toResource (fst fr) standalone) WORKSPACE_FOLDER (snd fr)))
      added) st
  = (Ok (map (fun fr => addWorkspaceService_resume (toResource (fst fr) standalone)
                          WORKSPACE_FOLDER (snd fr))
           (List.filter (fun fr => negb (registered st (toResource (fst fr) standalone)))
              added)),
     st).
Proof.
  induction added as [|fr added IH]; simpl; [done|].
  unfold mbind, SE_bind. simpl. rewrite IH. simpl.
  unfold registered.
  by destruct (bool_decide (is_Some (workspaceMcpManagementServices st
                                       !! toResource (fst fr) standalone))).
Qed.

(** A folder change is the removals of the registered folders, then the
    registrations of the folders not registered after them, each batch in
    the order its fetches settle. *)
Lemma onDidChangeWorkspaceFolders_run standalone removed added removedOrder addedOrder
    (st : State) :
  let mid :=
    removals standalone
      (arrange removedOrder
         (List.filter (fun fr => registered st (toResource (fst fr) standalone)) removed))
      st in
  onDidChangeWorkspaceFolders standalone removed added removedOrder addedOrder st
  = (Ok tt,
     registrations standalone
       (arrange addedOrder
          (List.filter (fun fr => negb (registered mid (toResource (fst fr) standalone)))
             added))
       mid).
Proof.
  unfold onDidChangeWorkspaceFolders, allSettled, try_catch, mbind, SE_bind.
  rewrite startAll_removals, arrange_map, settleAll_run, fold_left_runs.
  cbv beta iota. fold (removals standalone).
  rewrite startAll_registrations, arrange_map, settleAll_run, fold_left_runs.
  reflexivity.
Qed.

Lemma filter_filter {A} (p q : A -> bool) (l : list A) :
  List.filter q (List.filter p l) = List.filter (fun x => p x && q x) l.
Proof.
  induction l as [|x l IH]; simpl; [done|].
  destruct (p x); simpl; [|done]. destruct (q x); by rewrite IH.
Qed.

(** What a batch of removals leaves. *)
Lemma removals_run standalone leaving (st : State) :
  allMcpServers (removals standalone leaving st)
  = List.filter (fun server =>
        forallb (fun fr => negb (drained (fetched (snd fr)) server)) leaving)
      (allMcpServers st)
  /\ history (removals standalone leaving st)
     = history st
       ++ flat_map (fun fr => removalEffects (toResource (fst fr) standalone) (snd fr)) leaving
  /\ dom (workspaceMcpManagementServices (removals standalone leaving st))
     = dom (workspaceMcpManagementServices st)
       ∖ list_to_set (map (fun fr => toResource (fst fr) standalone) leaving).
Proof.
  revert st. induction leaving as [|fr leaving IH]; intros st.
  - simpl. split; [|split].
    + by rewrite filter_keeps_all.
    + by rewrite app_nil_r.
    + set_solver.
  - unfold removals in *. simpl fold_left.
    rewrite removeWorkspaceService_resume_run. cbn [snd].
    destruct (IH {| allMcpServers :=
                      List.filter (fun server => negb (drained (fetched (snd fr)) server))
                        (allMcpServers st);
                    workspaceMcpManagementServices :=
                      delete (toResource (fst fr) standalone) (workspaceMcpManagementServices st);
                    workspaceConfiguration := workspaceConfiguration st;
                    history := history st
                      ++ removalEffects (toResource (fst fr) standalone) (snd fr) |})
      as (Hall & Hhist & Hdom).
    rewrite Hall, Hhist, Hdom. cbn [allMcpServers history workspaceMcpManagementServices].
    split; [|split].
    + by rewrite filter_filter.
    + simpl. by rewrite <- app_assoc.
    + rewrite dom_delete_L. simpl. set_solver.
Qed.

(** What a batch of registrations leaves. *)
Lemma registrations_run standalone joining (st : State) :
  allMcpServers (registrations standalone joining st)
  = allMcpServers st ++ flat_map (fun fr => fetched (snd fr)) joining
  /\ history (registrations standalone joining st)
     = history st
       ++ flat_map (fun fr => registrationEffects (toResource (fst fr) standalone) (snd fr))
            joining
  /\ dom (workspaceMcpManagementServices (registrations standalone joining st))
     = dom (workspaceMcpManagementServices st)
       ∪ list_to_set (map (fun fr => toResource (fst fr) standalone) joining).
Proof.
  revert st. induction joining as [|fr joining IH]; intros st.
  - simpl. split; [|split].
    + by rewrite app_nil_r.
    + by rewrite app_nil_r.
    + set_solver.
  - unfold registrations in *. simpl fold_left.
    rewrite addWorkspaceService_resume_run. cbn [snd].
    destruct (IH {| allMcpServers := allMcpServers st ++ fetched (snd fr);
                    workspaceMcpManagementServices :=
                      <[toResource (fst fr) standalone :=
                          {| service_target := WORKSPACE_FOLDER;
                             service_mcpResource := toResource (fst fr) standalone |}]>
                        (workspaceMcpManagementServices st);
                    workspaceConfiguration := workspaceConfiguration st;
                    history := history st
                      ++ registrationEffects (toResource (fst fr) standalone) (snd fr) |})
      as (Hall & Hhist & Hdom).
    rewrite Hall, Hhist, Hdom. cbn [allMcpServers history workspaceMcpManagementServices].
    split; [|split].
    + simpl. by rewrite <- app_assoc.
    + simpl. by rewrite <- app_assoc.
    + rewrite dom_insert_L. simpl. set_solver.
Qed.

Lemma elem_of_List_filter {A} (p : A -> bool) (l : list A) (x : A) :
  x ∈ List.filter p l <-> x ∈ l /\ p x = true.
Proof. rewrite !list_elem_of_In. apply filter_In. Qed.

Lemma elem_of_map_inv {A B} (f : A -> B) (l : list A) (y : B) :
  y ∈ map f l -> exists x, y = f x /\ x ∈ l.
Proof.
  rewrite list_elem_of_In, in_map_iff. intros (x & <- & Hx).
  exists x. by rewrite list_elem_of_In.
Qed.

Lemma elem_of_map_intro {A B} (f : A -> B) (l : list A) (x : A) :
  x ∈ l -> f x ∈ map f l.
Proof. rewrite !list_elem_of_In. apply in_map. Qed.

(** The resources of the handlers that wait, whatever the order, are
    those of the folders that pass the test of the first half. *)
Lemma elem_of_arranged {A} (f : A -> URI) (p : A -> bool) (order : list nat) (l : list A)
    (r : URI) :
  r ∈ map f (arrange order (List.filter p l)) <-> exists x, r = f x /\ x ∈ l /\ p x = true.
Proof.
  split.
  - intros Hin. apply elem_of_map_inv in Hin as (x & -> & Hx).
    rewrite arrange_Permutation in Hx. apply elem_of_List_filter in Hx.
    by exists x.
  - intros (x & -> & Hx & Hp). apply elem_of_map_intro.
    rewrite arrange_Permutation. by apply elem_of_List_filter.
Qed.

(** C7: a fetch that fails with [e] while a resource is registered or
    removed does not make the call fail; the warning is logged and the
    aggregate list and the map end as with a fetch that reports no server,
    no event being fired for the resource; this holds too for the part of
    a handler that runs once its fetch has failed, whatever has happened to
    the aggregator while it waited.  A folder change never fails either,
    whatever fetches of it fail and in whatever order the fetches of a
    batch settle.  Its removals are those of the folders registered when
    it arrives, [leaving]: each server that the fetch of one of them
    reports for its resource is filtered from the list, and each leaves
    its uninstall events, or the warning of its failed fetch, followed by
    the deletion and disposal of its entry.  Its registrations are those
    of the folders not registered after the removals, [joining]: the list
    grows by what the fetch of each reports, nothing for a failed one, and
    each leaves its install event, or the warning of its failed fetch,
    followed by the setting of its entry.  Afterwards the registered
    resources are those from before, less the ones of the removed folders,
    plus the ones of the added folders. *)
Theorem fetch_errors_are_tolerated (standalone : string) (e : Error) :
  (forall r target st,
     let post := addWorkspaceService r target (Err e) st in
     let none := addWorkspaceService r target (Ok []) st in
     fst post = Ok tt
     /\ allMcpServers (snd post) = allMcpServers (snd none)
     /\ workspaceMcpManagementServices (snd post) = workspaceMcpManagementServices (snd none)
     /\ (workspaceMcpManagementServices st !! r = None ->
         allMcpServers (snd post) = allMcpServers st
         /\ history (snd post) = history st ++ [LogWarn r e; RegistrySet r]))
  /\ (forall r st,
        let post := removeWorkspaceService r (Err e) st in
        let none := removeWorkspaceService r (Ok []) st in
        fst post = Ok tt
        /\ allMcpServers (snd post) = allMcpServers (snd none)
        /\ workspaceMcpManagementServices (snd post) = workspaceMcpManagementServices (snd none)
        /\ (is_Some (workspaceMcpManagementServices st !! r) ->
            allMcpServers (snd post) = allMcpServers st
            /\ history (snd post)
               = history st ++ [LogWarn r e; RegistryDelete r; Dispose r]))
  /\ (forall removed added removedOrder addedOrder st,
        let resource := fun fr : IWorkspaceFolder * Result (list ILocalMcpServer) =>
                          toResource (fst fr) standalone in
        let mid :=
          snd (onDidChangeWorkspaceFolders standalone removed [] removedOrder [] st) in
        let post :=
          onDidChangeWorkspaceFolders standalone removed added removedOrder addedOrder st in
        let leaving :=
          arrange removedOrder
            (List.filter (fun fr => registered st (resource fr)) removed) in
        let joining :=
          arrange addedOrder
            (List.filter (fun fr => negb (registered mid (resource fr))) added) in
        fst post = Ok tt
        /\ dom (workspaceMcpManagementServices (snd post))
           = (dom (workspaceMcpManagementServices st)
              ∖ list_to_set (map (fun fr => toResource (fst fr) standalone) removed))
             ∪ list_to_set (map (fun fr => toResource (fst fr) standalone) added)
        /\ allMcpServers mid
           = List.filter (fun server =>
                 forallb (fun fr => negb (drained (fetched (snd fr)) server)) leaving)
               (allMcpServers st)
        /\ history mid
           = history st ++ flat_map (fun fr => removalEffects (resource fr) (snd fr)) leaving
        /\ allMcpServers (snd post)
           = allMcpServers mid ++ flat_map (fun fr => fetched (snd fr)) joining
        /\ history (snd post)
           = history mid
             ++ flat_map (fun fr => registrationEffects (resource fr) (snd fr)) joining)
  /\ (forall r target st,
        let post := addWorkspaceService_resume r target (Err e) st in
        fst post = Ok tt
        /\ allMcpServers (snd post) = allMcpServers st
        /\ workspaceMcpManagementServices (snd post)
           = <[r := {| service_target := target; service_mcpResource := r |}]>
               (workspaceMcpManagementServices st)
        /\ history (snd post) = history st ++ [LogWarn r e; RegistrySet r])
  /\ (forall r st,
        let post := removeWorkspaceService_resume r (Err e) st in
        fst post = Ok tt
        /\ allMcpServers (snd post) = allMcpServers st
        /\ workspaceMcpManagementServices (snd post)
           = delete r (workspaceMcpManagementServices st)
        /\ history (snd post) = history st ++ [LogWarn r e; RegistryDelete r; Dispose r]).
Proof.
  split; [|split; [|split; [|split]]].
  - intros r target st post none. subst post none.
    rewrite !addWorkspaceService_run. simpl.
    destruct (workspaceMcpManagementServices st !! r) as [item|]; simpl.
    + repeat split; done.
    + repeat split; try done. by rewrite app_nil_r.
  - intros r st post none. subst post none.
    rewrite !removeWorkspaceService_run. simpl.
    destruct (workspaceMcpManagementServices st !! r) as [item|]; simpl.
    + repeat split; try done.
      unfold drained. simpl. by rewrite filter_keeps_all.
    + repeat split; try done; by intros [? ?].
  - intros removed added removedOrder addedOrder st resource mid post leaving joining.
    assert (mid = removals standalone leaving st) as Hmid.
    { subst mid. by rewrite onDidChangeWorkspaceFolders_run. }
    assert (post = (Ok tt, registrations standalone joining mid)) as Hpost.
    { subst post joining. rewrite onDidChangeWorkspaceFolders_run. by rewrite Hmid. }
    destruct (removals_run standalone leaving st) as (Hall & Hhist & Hdom).
    destruct (registrations_run standalone joining mid) as (Hall' & Hhist' & Hdom').
    rewrite <- Hmid in Hall, Hhist, Hdom. rewrite Hpost. cbn [fst snd].
    split; [done|]. split; [|by split; [|split; [|split]]].
    rewrite Hdom', Hdom. apply set_eq. intros r.
    rewrite !elem_of_union, !elem_of_difference, !elem_of_list_to_set.
    subst leaving joining. rewrite !elem_of_arranged. split.
    + intros [[Hr Hn]|(fr & -> & Hfr & _)].
      * left. split; [done|]. intros Hin. apply Hn.
        apply elem_of_map_inv in Hin as (fr & -> & Hfr).
        exists fr. split; [done|]. split; [done|]. by apply registered_true.
      * right. by apply (elem_of_map_intro (fun fr => toResource (fst fr) standalone)).
    + intros [[Hr Hn]|Hin].
      * left. split; [done|]. intros (fr & -> & Hfr & _). apply Hn.
        by apply (elem_of_map_intro (fun fr => toResource (fst fr) standalone)).
      * destruct (registered mid r) eqn:Hreg.
        -- left. apply registered_true in Hreg. rewrite Hdom in Hreg.
           apply elem_of_difference in Hreg as [Hr Hn]. split; [done|].
           intros Hex. apply Hn. rewrite elem_of_list_to_set.
           by apply elem_of_arranged.
        -- right. apply elem_of_map_inv in Hin as (fr & -> & Hfr).
           exists fr. split; [done|]. split; [done|]. subst resource. simpl.
           by rewrite Hreg.
  - intros r target st post. subst post.
    rewrite addWorkspaceService_resume_run. simpl. by rewrite app_nil_r.
  - intros r st post. subst post.
    rewrite removeWorkspaceService_resume_run. simpl.
    by rewrite filter_keeps_all.
Qed.

Lemma fetch_errors_are_tolerated_witness :
  (let post := addWorkspaceService resourceW WORKSPACE_FOLDER (Err (Thrown "EIO")) initial in
   fst post = Ok tt
   /\ allMcpServers (snd post) = []
   /\ history (snd post) = [LogWarn resourceW (Thrown "EIO"); RegistrySet resourceW])
  /\ (let post := onDidChangeWorkspaceFolders ".vscode/mcp.json" []
                    [(folderW, Err (Thrown "EIO")); (folderY, Ok [serverY])] [] [1] initial in
      fst post = Ok tt
      /\ dom (workspaceMcpManagementServices (snd post))
         = (∅ ∖ ∅) ∪ ({[ resourceW ]} ∪ ({[ resourceY ]} ∪ ∅))
      /\ allMcpServers (snd post) = [serverY]
      /\ history (snd post)
         = [Fire (onDidInstallMcpServers [toInstallResult serverY]); RegistrySet resourceY;
            LogWarn resourceW (Thrown "EIO"); RegistrySet resourceW]).
Proof.
  split.
  - destruct (proj1 (fetch_errors_are_tolerated ".vscode/mcp.json" (Thrown "EIO"))
                resourceW WORKSPACE_FOLDER initial) as (Hok & _ & _ & Hfresh).
    destruct Hfresh as [Hall Hhist]; [vm_compute; reflexivity|].
    split; [exact Hok|]. split; [exact Hall|exact Hhist].
  - destruct (proj1 (proj2 (proj2 (fetch_errors_are_tolerated ".vscode/mcp.json"
                                     (Thrown "EIO"))))
                [] [(folderW, Err (Thrown "EIO")); (folderY, Ok [serverY])] [] [1] initial)
      as (Hok & Hdom & _ & _ & Hall & Hhist).
    split; [exact Hok|]. split; [exact Hdom|]. split; [exact Hall|exact Hhist].
Defined.

(** *** The aggregate list as a union *)

Lemma NoDup_map_filter {A B} (f : A -> B) (p : A -> bool) (l : list A) :
  NoDup (map f l) -> NoDup (map f (List.filter p l)).
Proof.
  induction l as [|x l IH]; simpl; [done|].
  rewrite NoDup_cons. intros [Hx Hl].
  destruct (p x); simpl; [|by apply IH].
  apply NoDup_cons. split; [|by apply IH].
  intros Hin. apply Hx.
  apply elem_of_map_inv in Hin as (y & -> & Hy).
  apply elem_of_List_filter in Hy as [Hy _].
  rewrite list_elem_of_In. apply in_map. by rewrite <- list_elem_of_In.
Qed.

(** Servers of one resource with distinct names have distinct keys. *)
Lemma NoDup_keys_of_names (r : URI) (l : list ILocalMcpServer) :
  Forall (fun server => mcpResource server = r) l ->
  NoDup (map name l) -> NoDup (map key l).
Proof.
  induction l as [|x l IH]; simpl; [constructor|].
  rewrite Forall_cons, !NoDup_cons. intros [Hx Hl] [Hn Hd].
  split; [|by apply IH].
  intros Hin. apply Hn.
  apply elem_of_map_inv in Hin as (y & Hk & Hy).
  unfold key in Hk. injection Hk as _ Hname. rewrite Hname.
  rewrite list_elem_of_In. apply in_map. by rewrite <- list_elem_of_In.
Qed.

Lemma drained_true (r : URI) (l : list ILocalMcpServer) (server : ILocalMcpServer) :
  Forall (fun u => mcpResource u = r) l ->
  drained l server = true <-> l <> [] /\ mcpResource server = r.
Proof.
  intros Hl. unfold drained. rewrite existsb_exists. split.
  - intros (u & Hu & Heq). apply isEqual_true in Heq.
    rewrite Forall_forall in Hl. apply list_elem_of_In in Hu.
    split; [by destruct l; [inversion Hu|]|].
    rewrite <- Heq. by apply Hl.
  - intros [Hne Hr]. destruct l as [|u l]; [done|].
    exists u. split; [by left|].
    apply Forall_cons in Hl as [Hu _]. apply isEqual_true. by rewrite Hu, Hr.
Qed.

Lemma wellReported_forallb (r : URI) (l : list ILocalMcpServer) :
  forallb (fun server => isEqual (mcpResource server) r) l = true ->
  Forall (fun server => mcpResource server = r) l.
Proof.
  rewrite forallb_forall, Forall_forall. intros H x Hx.
  apply isEqual_true, H. by apply list_elem_of_In.
Qed.

(** A handler that resumes with the map as its first half found it keeps
    the invariant. *)
Lemma invariant_resume known st ev :
  invariant known st -> begun known ev -> wellReported known ev = true ->
  invariant (learn known ev) (snd (resume ev st)).
Proof.
  intros (Hunion & Hnodup & Hdom & Hsets) Hbegun Hev.
  destruct ev as [r target f|r f]; simpl in *.
  - (* registration *)
    rewrite addWorkspaceService_resume_run. simpl.
    rename Hbegun into Hk.
    apply andb_true_iff in Hev as [Hres Hnames].
    apply wellReported_forallb in Hres. apply bool_decide_eq_true in Hnames.
    unfold invariant, unionOf. simpl. split; [|split; [|split]].
    + intros server. split.
      * intros Hin. apply elem_of_app in Hin as [Hin|Hin].
        -- apply Hunion in Hin as (r' & l' & Hl' & Hin).
           exists r', l'. split; [|done].
           rewrite lookup_insert_ne; [done|]. intros ->. congruence.
        -- exists r, (fetched f). split; [apply lookup_insert_eq|done].
      * intros (r' & l' & Hl' & Hin). apply elem_of_app.
        destruct (decide (r = r')) as [<-|Hne].
        -- rewrite lookup_insert_eq in Hl'. injection Hl' as <-. by right.
        -- rewrite lookup_insert_ne in Hl' by done. left.
           apply Hunion. by exists r', l'.
    + rewrite List.map_app. apply NoDup_app. split; [done|]. split.
      * intros k Hk1 Hk2.
        apply elem_of_map_inv in Hk1 as (x & -> & Hx).
        apply elem_of_map_inv in Hk2 as (y & Hxy & Hy).
        apply Hunion in Hx as (r' & l' & Hl' & Hx).
        destruct (Hsets r' l' Hl') as [Hr' _].
        rewrite Forall_forall in Hr', Hres.
        unfold key in Hxy. injection Hxy as Hxy _.
        rewrite (Hr' x), (Hres y) in Hxy by done. congruence.
      * by apply (NoDup_keys_of_names r).
    + rewrite !dom_insert_L. by rewrite Hdom.
    + intros r0 l0 Hl0. destruct (decide (r = r0)) as [<-|Hne].
      * rewrite lookup_insert_eq in Hl0. by injection Hl0 as <-.
      * rewrite lookup_insert_ne in Hl0 by done. by apply (Hsets r0).
  - (* removal *)
    rewrite removeWorkspaceService_resume_run. simpl.
    destruct Hbegun as [l Hk]. rewrite Hk in Hev.
    apply andb_true_iff in Hev as [Hres Hsome].
    apply wellReported_forallb in Hres.
    unfold invariant, unionOf. simpl. split; [|split; [|split]].
    + intros server. split.
      * intros Hin. apply elem_of_List_filter in Hin as [Hin Hkeep].
        apply Hunion in Hin as (r' & l' & Hl' & Hin).
        exists r', l'. split; [|done].
        rewrite lookup_delete_ne; [done|]. intros <-.
        rewrite Hk in Hl'. injection Hl' as <-.
        apply negb_true_iff in Hkeep.
        assert (drained (fetched f) server = true) as Hd; [|congruence].
        apply (drained_true r); [done|]. split.
        -- destruct l as [|x l]; [by inversion Hin|].
           simpl in Hsome. by destruct (fetched f).
        -- destruct (Hsets r _ Hk) as [Hr _].
           rewrite Forall_forall in Hr. by apply Hr.
      * intros (r' & l' & Hl' & Hin).
        destruct (decide (r = r')) as [<-|Hne];
          [by rewrite lookup_delete_eq in Hl'|].
        rewrite lookup_delete_ne in Hl' by done.
        apply elem_of_List_filter. split; [apply Hunion; by exists r', l'|].
        apply negb_true_iff. destruct (drained (fetched f) server) eqn:Hd; [|done].
        apply (drained_true r) in Hd as [_ Hd]; [|done].
        destruct (Hsets r' l' Hl') as [Hr' _].
        rewrite Forall_forall in Hr'. rewrite (Hr' server) in Hd by done. congruence.
    + by apply NoDup_map_filter.
    + rewrite !dom_delete_L. by rewrite Hdom.
    + intros r0 l0 Hl0. destruct (decide (r = r0)) as [<-|Hne];
        [by rewrite lookup_delete_eq in Hl0|].
      rewrite lookup_delete_ne in Hl0 by done. by apply (Hsets r0).
Qed.

(** The first half of a handler reads the map and nothing else. *)
Lemma begin_run ev (st : State) : begin ev st = (Ok (waits st ev), st).
Proof.
  destruct ev as [r target f|r f]; simpl; [done|].
  unfold removeWorkspaceService_begin, registered. run.
  by destruct (workspaceMcpManagementServices st !! r).
Qed.

Lemma not_waiting (r : URI) (l : list FolderEvent) :
  existsb (fun waiting => isEqual (resourceOf waiting) r) l = false ->
  r ∉ map resourceOf l.
Proof.
  intros Hnone Hin. apply elem_of_map_inv in Hin as (ev & -> & Hev).
  assert (existsb (fun waiting => isEqual (resourceOf waiting) (resourceOf ev)) l = true)
    as Hsome; [|congruence].
  apply existsb_exists. exists ev. split; [by apply list_elem_of_In|].
  by apply isEqual_true.
Qed.

(** What a handler finds in the map is not touched by the handlers of
    other resources. *)
Lemma begun_learn known ev ev' :
  resourceOf ev' <> resourceOf ev -> begun known ev' -> begun (learn known ev) ev'.
Proof.
  intros Hne.
  destruct ev as [r target f|r f], ev' as [r' target' f'|r' f']; simpl in *.
  all: rewrite ?lookup_insert_ne, ?lookup_delete_ne by congruence; done.
Qed.

(** One step of a schedule keeps the invariant of the run. *)
Lemma runInvariant_step known x s :
  runInvariant known x -> admissible known x s = true ->
  runInvariant (learnt known x s) (step x s).
Proof.
  intros (Hinv & Hnodup & Hbegun) Hadm.
  destruct s as [ev|n]; simpl in *.
  - (* a handler is called *)
    rewrite begin_run.
    apply negb_true_iff, not_waiting in Hadm.
    assert (forall waits : bool,
              (waits = true -> begun known ev) ->
              runInvariant known
                (if waits then {| state := state x; suspended := suspended x ++ [ev] |}
                 else {| state := state x; suspended := suspended x |})) as Hcall.
    { intros [|] Hev; [|done]. split; [done|]. simpl. split.
      - rewrite List.map_app. apply NoDup_app. split; [done|]. split.
        + intros r Hr Hr'. simpl in Hr'. apply list_elem_of_singleton in Hr' as ->. done.
        + simpl. apply NoDup_singleton.
      - apply Forall_app. split; [done|]. apply Forall_singleton. by apply Hev. }
    destruct Hinv as (_ & _ & Hdom & _).
    destruct ev as [r target f|r f]; simpl in *.
    + apply Hcall. intros Hwaits. apply negb_true_iff in Hwaits.
      apply (not_elem_of_dom (D := gset string)). rewrite Hdom.
      intros Hin. apply registered_true in Hin. congruence.
    + apply Hcall. intros Hwaits. apply registered_true in Hwaits.
      apply (elem_of_dom (D := gset string)). by rewrite Hdom.
  - (* a fetch settles *)
    destruct (suspended x !! n) as [ev|] eqn:Hn; [|done].
    apply list_elem_of_split_length in Hn as (l1 & l2 & Hl & ->).
    unfold runInvariant. simpl. rewrite Hl in *. rewrite delete_middle.
    rewrite List.map_app in Hnodup. simpl in Hnodup.
    apply NoDup_app in Hnodup as (Hn1 & Hdisj & Hn2).
    apply NoDup_cons in Hn2 as [Hev2 Hn2].
    apply Forall_app in Hbegun as [Hb1 Hb2].
    apply Forall_cons in Hb2 as [Hbev Hb2].
    split; [by apply invariant_resume|]. split.
    + rewrite List.map_app. apply NoDup_app. split; [done|]. split; [|done].
      intros r Hr1 Hr2. apply (Hdisj r Hr1). by right.
    + rewrite Forall_forall in Hb1, Hb2.
      apply Forall_app. split; apply Forall_forall; intros ev' Hin.
      * apply begun_learn; [|by apply Hb1]. intros Heq.
        apply (Hdisj (resourceOf ev')); [by apply elem_of_map_intro|].
        rewrite Heq. left.
      * apply begun_learn; [|by apply Hb2]. intros Heq.
        apply Hev2. rewrite <- Heq. by apply elem_of_map_intro.
Qed.

Lemma runInvariant_interleaved schedule known x :
  runInvariant known x -> disciplinedFrom known x schedule = true ->
  runInvariant (lastKnownFrom known x schedule) (interleaved schedule x).
Proof.
  revert known x.
  induction schedule as [|s schedule IH]; intros known x Hinv Hd; simpl in *; [done|].
  apply andb_true_iff in Hd as [Hs Hd].
  apply IH; [by apply runInvariant_step|done].
Qed.

Lemma invariant_initial : invariant ∅ initial.
Proof.
  unfold invariant, unionOf. simpl. split; [|split; [|split]].
  - intros server. split.
    + intros Hin. by inversion Hin.
    + intros (r & l & Hl & _). by rewrite lookup_empty in Hl.
  - constructor.
  - by rewrite !dom_empty_L.
  - intros r l Hl. by rewrite lookup_empty in Hl.
Qed.

Lemma runInvariant_start : runInvariant ∅ start.
Proof.
  split; [apply invariant_initial|]. simpl. split; constructor.
Qed.

(** Handlers that run in turn are the handlers run whole, one after the
    other. *)
Lemma inTurn_handles evs (st : State) :
  interleaved (inTurn evs) {| state := st; suspended := [] |}
  = {| state := fold_left (fun st' ev => snd (handle ev st')) evs st; suspended := [] |}.
Proof.
  revert st. induction evs as [|ev evs IH]; intros st; [done|].
  unfold interleaved, inTurn in *. simpl. rewrite begin_run.
  destruct ev as [r target f|r f]; simpl.
  - rewrite addWorkspaceService_halves.
    change (addWorkspaceService_begin r st) with (begin (Added r target f) st).
    rewrite begin_run. simpl.
    destruct (registered st r); simpl; apply IH.
  - rewrite removeWorkspaceService_halves.
    change (removeWorkspaceService_begin r st) with (begin (Removed r f) st).
    rewrite begin_run. simpl.
    destruct (registered st r); simpl; apply IH.
Qed.

(** The handlers of a batch are called together: the state stays, and
    those that go on to their fetch wait. *)
Lemma calls_run evs (st : State) (waiting : list FolderEvent) :
  interleaved (map Call evs) {| state := st; suspended := waiting |}
  = {| state := st; suspended := waiting ++ List.filter (waits st) evs |}.
Proof.
  revert waiting. induction evs as [|ev evs IH]; intros waiting; simpl.
  - by rewrite app_nil_r.
  - unfold interleaved in *. simpl. rewrite begin_run.
    destruct (waits st ev); simpl; rewrite IH; [by rewrite <- app_assoc|done].
Qed.

Lemma settles_left (k : nat) (waiting : list FolderEvent) (st : State) :
  length waiting <= k ->
  interleaved (repeat (Settle 0) k) {| state := st; suspended := waiting |}
  = {| state := fold_left (fun st' ev => snd (resume ev st')) waiting st; suspended := [] |}.
Proof.
  revert waiting st. induction k as [|k IH]; intros waiting st Hk.
  - destruct waiting; [done|simpl in Hk; lia].
  - unfold interleaved in *. simpl.
    destruct waiting as [|ev waiting]; simpl.
    + apply (IH [] st). simpl. lia.
    + apply IH. simpl in Hk. lia.
Qed.

(** The fetches of a batch settle in [order]. *)
Lemma settles_run (order : list nat) (k : nat) (waiting : list FolderEvent) (st : State) :
  length waiting <= k ->
  interleaved (map Settle order ++ repeat (Settle 0) k)
    {| state := st; suspended := waiting |}
  = {| state := fold_left (fun st' ev => snd (resume ev st')) (arrange order waiting) st;
       suspended := [] |}.
Proof.
  revert waiting st. induction order as [|n order IH]; intros waiting st Hk.
  - by apply settles_left.
  - unfold interleaved in *. simpl.
    destruct (waiting !! n) as [ev|] eqn:Hn; simpl.
    + apply IH. rewrite length_delete by (by eexists). lia.
    + by apply IH.
Qed.

Lemma batch_run evs order (st : State) :
  interleaved (batch evs order) {| state := st; suspended := [] |}
  = {| state := fold_left (fun st' ev => snd (resume ev st'))
                  (arrange order (List.filter (waits st) evs)) st;
       suspended := [] |}.
Proof.
  unfold batch, interleaved. rewrite fold_left_app.
  change (fold_left step (map Call evs) ?x) with (interleaved (map Call evs) x).
  rewrite calls_run. simpl. apply settles_run. apply List.filter_length_le.
Qed.

Lemma filter_of_map {A B} (f : A -> B) (p : B -> bool) (l : list A) :
  List.filter p (map f l) = map f (List.filter (fun x => p (f x)) l).
Proof.
  induction l as [|x l IH]; simpl; [done|]. destruct (p (f x)); simpl; by rewrite IH.
Qed.

Lemma fold_left_of_map {A B C} (g : C -> B -> C) (f : A -> B) (l : list A) (c : C) :
  fold_left g (map f l) c = fold_left (fun c' x => g c' (f x)) l c.
Proof. revert c. induction l as [|x l IH]; intros c; simpl; [done|]. apply IH. Qed.

(** A folder change that nothing interrupts is the schedule of its two
    batches. *)
Lemma folderChange_run standalone removed added removedOrder addedOrder (st : State) :
  interleaved (folderChange standalone removed added removedOrder addedOrder)
    {| state := st; suspended := [] |}
  = {| state := snd (onDidChangeWorkspaceFolders standalone removed added
                       removedOrder addedOrder st);
       suspended := [] |}.
Proof.
  unfold folderChange, interleaved. rewrite fold_left_app.
  change (fold_left step (batch ?evs ?order) ?x) with (interleaved (batch evs order) x).
  rewrite !batch_run, onDidChangeWorkspaceFolders_run.
  rewrite !filter_of_map, !arrange_map, !fold_left_of_map. reflexivity.
Qed.

(** C1, as stated, fails, also when each handler returns before the next
    is called: after a folder with one server is added and then removed
    while the fetch fails, no resource is registered, yet the server is
    still in the list. *)
Lemma failing_removal_counterexample : ~ aggregate_is_union (inTurn addThenFailingRemove).
Proof.
  intros [Hunion _].
  destruct (proj1 (Hunion serverB)) as (r & l & Hl & _).
  - vm_compute. left.
  - vm_compute in Hl. discriminate Hl.
Qed.

(** It fails as well with fetches that all succeed, when handlers of one
    resource overlap: a folder added, removed and added again before the
    first fetch settles has its server twice in the list. *)
Lemma overlapping_registrations_duplicate :
  allMcpServers (state (interleaved racingRegistrations start)) = [serverB; serverB]
  /\ ~ aggregate_is_union racingRegistrations.
Proof.
  split; [vm_compute; reflexivity|].
  intros [_ Hnodup]. vm_compute in Hnodup.
  apply NoDup_cons in Hnodup as [Hin _]. apply Hin. left.
Qed.

(** C1, amended: take any schedule of calls of the two folder handlers
    and of settling fetches that is [disciplined]: no handler is called
    for a resource while another handler for that resource waits for its
    fetch, and the fetches are well reported.  At its end the list of
    [getInstalled()] holds exactly the servers of the last-known sets of
    the registered resources, no two entries of it have the same resource
    and name, and the last-known sets are kept for exactly the registered
    resources. *)
Theorem getInstalled_is_union_of_last_known (schedule : list Step) :
  disciplined schedule = true ->
  let st := state (interleaved schedule start) in
  fst (getInstalled st) = Ok (allMcpServers st)
  /\ unionOf (lastKnown schedule) (allMcpServers st)
  /\ NoDup (map key (allMcpServers st))
  /\ dom (lastKnown schedule) = dom (workspaceMcpManagementServices st).
Proof.
  intros Hd st.
  destruct (runInvariant_interleaved schedule ∅ start runInvariant_start Hd)
    as ((Hu & Hn & Hdom & _) & _).
  by split; [|split; [|split]].
Qed.

Lemma getInstalled_is_union_of_last_known_witness :
  let st := state (interleaved overlappingFolders start) in
  fst (getInstalled st) = Ok (allMcpServers st)
  /\ unionOf (lastKnown overlappingFolders) (allMcpServers st)
  /\ NoDup (map key (allMcpServers st))
  /\ dom (lastKnown overlappingFolders) = dom (workspaceMcpManagementServices st).
Proof.
  apply (getInstalled_is_union_of_last_known overlappingFolders).
  vm_compute. reflexivity.
Defined.

End WorkspaceFacts.

(** ** Prompt resolve errors *)
Module PromptErrorsFacts.
Import PromptErrors.

(** C10: constructing a [RecursiveReference] either succeeds, and then
    the recursive path it holds is the given one and has at least two
    entries, or fails the assertion, and then the given path has fewer
    than two entries.  So a path of length 0 or 1 always throws. *)
Theorem RecursiveReference_needs_two_paths (uri' : URI) (recursivePath' : list string) :
  match new_RecursiveReference uri' recursivePath' with
  | Ok e => recursivePath e = recursivePath' /\ 2 <= length (recursivePath e)
  | Err err =>
      length recursivePath' < 2
      /\ err = AssertionFailed
                 ("Recursive path must contain at least two paths, got '"
                    +:+ pretty (length recursivePath') +:+ "'.")
  end.
Proof.
  unfold new_RecursiveReference, assert.
  destruct (2 <=? length recursivePath')%nat eqn:E; simpl.
  - apply Nat.leb_le in E. done.
  - apply Nat.leb_gt in E. done.
Qed.

Example RecursiveReference_one_path :
  new_RecursiveReference "file:///a.md" ["a.md"]
  = Err (AssertionFailed "Recursive path must contain at least two paths, got '1'.").
Proof. vm_compute. reflexivity. Qed.

Example RecursiveReference_two_paths :
  message <$> (match new_RecursiveReference "file:///a.md" ["a.md"; "b.md"] with
               | Ok e => Some e | Err _ => None end)
  = Some "Recursive references found: a.md -> b.md.".
Proof. vm_compute. reflexivity. Qed.

End PromptErrorsFacts.

(** ** Notebook diff navigation *)
Module NotebookNavFacts.
Import NotebookNav Examples.

Section Widget.

Variable Integration : Type.
Variable integration_reveal : Integration -> bool -> Integration.
Variable integration_next : Integration -> bool -> bool * Integration.
Variable integration_currentIndex : Integration -> Z.
Variable sortCellChanges : list ICellDiffInfo -> list ICellDiffInfo.

Abbreviation next :=
  (next Integration integration_reveal integration_next integration_currentIndex
     sortCellChanges).

(** From an inserted or a deleted cell, or without a current change,
    [next(true)] does what [next(false)] does: the call [this.next(false)]
    of its last lines finds the current change where it was and gives up
    the same way. *)
Lemma next_wrap_without_effect (w : Widget Integration) :
  match currentChange w with
  | Some (change, _) => type change <> Modified
  | None => True
  end ->
  next true w = next false w.
Proof.
  unfold NotebookNav.next, next_body.
  unfold mbind, mret, SE_bind, SE_ret, gets. simpl.
  destruct (currentChange w) as [[change index]|] eqn:Hc; [|done].
  intros Hm.
  destruct (type change) eqn:Ht; try done.
  - destruct (at_ _ _) eqn:Hnext; [done|]. by rewrite Hc, Ht, Hnext.
  - destruct (at_ _ _) eqn:Hnext; [done|]. by rewrite Hc, Ht, Hnext.
  - by rewrite Hc, Ht.
Qed.

End Widget.


End NotebookNavFacts.

(** ** More on the workspace aggregator *)
Module WorkspaceMoreFacts.
Import Mcp.Workspace Examples WorkspaceFacts.


Lemma filter_app_drained (r : URI) (l all : list ILocalMcpServer) :
  Forall (fun server => mcpResource server = r) l ->
  Forall (fun server => mcpResource server <> r) all ->
  List.filter (fun server => negb (drained l server)) (all ++ l) = all.
Proof.
  intros Hl Hall. rewrite List.filter_app.
  assert (List.filter (fun server => negb (drained l server)) l = []) as ->.
  { assert (forall k, Forall (fun server => mcpResource server = r) k -> incl k l ->
              List.filter (fun server => negb (drained l server)) k = []) as Hk.
    { induction k as [|x k IH]; simpl; [done|].
      rewrite Forall_cons. intros [Hx Hk] Hincl.
      assert (drained l x = true) as ->.
      { apply (drained_true r); [done|]. split; [|done].
        intros ->. by apply (Hincl x); left. }
      simpl. apply IH; [done|]. intros y Hy. apply Hincl. by right. }
    apply Hk; [done|]. by intros y Hy. }
  rewrite app_nil_r. apply filter_keeps_all_on.
  rewrite Forall_forall in Hall |- *. intros x Hx.
  destruct (drained l x) eqn:Hd; [|done].
  apply (drained_true r) in Hd as [_ Hd]; [|done]. by destruct (Hall x Hx).
Qed.

(** X2: registering a fresh resource whose service reports servers of its
    own resource, and removing it again with the same report, gives back
    the aggregate list and the map as they were, provided the list held no
    server of that resource before. *)
Theorem register_then_remove_restores (r : URI) (target : ConfigurationTarget)
    (l : list ILocalMcpServer) (st : State) :
  workspaceMcpManagementServices st !! r = None ->
  Forall (fun server => mcpResource server = r) l ->
  Forall (fun server => mcpResource server <> r) (allMcpServers st) ->
  let st' := snd (removeWorkspaceService r (Ok l)
                    (snd (addWorkspaceService r target (Ok l) st))) in
  allMcpServers st' = allMcpServers st
  /\ workspaceMcpManagementServices st' = workspaceMcpManagementServices st
  /\ workspaceConfiguration st' = workspaceConfiguration st.
Proof.
  intros Hr Hl Hall st'. subst st'.
  rewrite removeWorkspaceService_run, addWorkspaceService_run. rewrite Hr. simpl.
  rewrite lookup_insert_eq. simpl.
  split; [|split; [|done]].
  - by apply (filter_app_drained r).
  - by apply delete_insert_id.
Qed.

Lemma register_then_remove_restores_witness :
  let st' := snd (removeWorkspaceService resourceW (Ok [serverB])
                    (snd (addWorkspaceService resourceW WORKSPACE_FOLDER (Ok [serverB])
                            yFolder))) in
  allMcpServers st' = allMcpServers yFolder
  /\ workspaceMcpManagementServices st' = workspaceMcpManagementServices yFolder
  /\ workspaceConfiguration st' = workspaceConfiguration yFolder.
Proof.
  apply (register_then_remove_restores resourceW WORKSPACE_FOLDER [serverB] yFolder).
  - vm_compute. reflexivity.
  - repeat constructor.
  - repeat constructor. vm_compute. discriminate.
Defined.

Lemma drained_is_of_resource (r : URI) (l : list ILocalMcpServer)
    (server : ILocalMcpServer) :
  Forall (fun u => mcpResource u = r) l -> l <> [] ->
  drained l server = isEqual (mcpResource server) r.
Proof.
  intros Hl Hne.
  destruct (isEqual (mcpResource server) r) eqn:E.
  - apply (drained_true r); [done|]. split; [done|]. by apply isEqual_true.
  - destruct (drained l server) eqn:Hd; [|done].
    apply (drained_true r) in Hd as [_ Hd]; [|done].
    apply isEqual_true in Hd. congruence.
Qed.

(** X3: removing a registered resource whose service reports at least one
    server, all of its own resource, takes out of the aggregate list every
    server of that resource, also those the report does not name, and
    keeps the servers of all other resources in their order. *)
Theorem removal_drains_its_resource (r : URI) (l : list ILocalMcpServer) (st : State) :
  is_Some (workspaceMcpManagementServices st !! r) ->
  Forall (fun server => mcpResource server = r) l ->
  l <> [] ->
  allMcpServers (snd (removeWorkspaceService r (Ok l) st))
  = List.filter (fun server => negb (isEqual (mcpResource server) r)) (allMcpServers st).
Proof.
  intros [item Hitem] Hl Hne.
  rewrite removeWorkspaceService_run, Hitem. simpl.
  apply List.filter_ext. intros server.
  by rewrite (drained_is_of_resource r).
Qed.

Lemma removal_drains_its_resource_witness :
  allMcpServers (snd (removeWorkspaceService resourceW (Ok [serverB]) oneFolder))
  = List.filter (fun server => negb (isEqual (mcpResource server) resourceW))
      (allMcpServers oneFolder).
Proof.
  apply (removal_drains_its_resource resourceW [serverB] oneFolder).
  - vm_compute. eexists. reflexivity.
  - repeat constructor.
  - discriminate.
Defined.

Lemma removed_is_unregistered r f (st : State) :
  workspaceMcpManagementServices (snd (removeWorkspaceService r f st)) !! r = None.
Proof.
  rewrite removeWorkspaceService_run.
  destruct (workspaceMcpManagementServices st !! r) as [item|] eqn:E; simpl.
  - apply lookup_delete_eq.
  - done.
Qed.

(** X4: once a resource is removed, whether its last fetch succeeded or
    not, [install] and [uninstall] addressed to it throw the no-service
    error and change nothing, even for a server that is still listed. *)
Theorem removed_resource_is_refused
    (service_install : ServiceItem -> IMcpServer -> InstallOptions -> M ILocalMcpServer)
    (service_uninstall : ServiceItem -> ILocalMcpServer -> M unit)
    (r : URI) (f : Result (list ILocalMcpServer)) (st : State)
    (descriptor' : IMcpServer) (options : InstallOptions) (server : ILocalMcpServer) :
  opt_mcpResource options = Some r ->
  mcpResource server = r ->
  let st' := snd (removeWorkspaceService r f st) in
  install service_install descriptor' (Some options) st' = (Err (NoManagementService r), st')
  /\ uninstall service_uninstall server st' = (Err (NoManagementService r), st').
Proof.
  intros Ho Hs st'. subst st'.
  pose proof (removed_is_unregistered r f st) as Hnone.
  split.
  - unfold install. rewrite Ho. run. by rewrite Hnone.
  - unfold uninstall. run. rewrite Hs. by rewrite Hnone.
Qed.

Lemma removed_resource_is_refused_witness :
  let st' := snd (removeWorkspaceService resourceW (Err (Thrown "EIO")) oneFolder) in
  (allMcpServers st' = [serverB]
   /\ install storing descriptor
        (Some {| opt_mcpResource := Some resourceW; opt_target := None |}) st'
      = (Err (NoManagementService resourceW), st'))
  /\ uninstall (fun _ _ => mret tt) serverB st' = (Err (NoManagementService resourceW), st').
Proof.
  destruct (removed_resource_is_refused storing (fun _ _ => mret tt) resourceW
              (Err (Thrown "EIO")) oneFolder descriptor
              {| opt_mcpResource := Some resourceW; opt_target := None |} serverB
              eq_refl eq_refl) as [Hi Hu].
  split; [split; [vm_compute; reflexivity|exact Hi]|exact Hu].
Defined.

Lemma removeFirst_none {A} (p : A -> bool) (l : list A) :
  Forall (fun x => p x = false) l -> removeFirst p l = None.
Proof.
  induction l as [|x l IH]; simpl; [done|].
  rewrite Forall_cons. intros [Hx Hl]. by rewrite Hx, IH.
Qed.

Lemma removeFirst_first {A} (p : A -> bool) (l1 l2 : list A) (x : A) :
  Forall (fun y => p y = false) l1 -> p x = true ->
  removeFirst p (l1 ++ x :: l2) = Some (l1 ++ l2).
Proof.
  intros Hl1 Hx. induction l1 as [|y l1 IH]; simpl.
  - by rewrite Hx.
  - apply Forall_cons in Hl1 as [Hy Hl1]. by rewrite Hy, IH.
Qed.

Lemma uninstall_listener_none (e : McpServerEvent) (st : State) :
  Forall (fun server => matches e server = false) (allMcpServers st) ->
  service_onDidUninstallMcpServer e st = (Ok tt, st).
Proof.
  intros Hnone. unfold service_onDidUninstallMcpServer. run.
  fold (matches e). by rewrite removeFirst_none.
Qed.

Lemma uninstall_listener_first (e : McpServerEvent) (st : State) before server after_ :
  allMcpServers st = before ++ server :: after_ ->
  Forall (fun other => matches e other = false) before ->
  matches e server = true ->
  service_onDidUninstallMcpServer e st
  = (Ok tt,
     {| allMcpServers := before ++ after_;
        workspaceMcpManagementServices := workspaceMcpManagementServices st;
        workspaceConfiguration := workspaceConfiguration st;
        history := history st ++ [Fire (onDidUninstallMcpServer e)] |}).
Proof.
  intros Hall Hbefore Hserver.
  unfold service_onDidUninstallMcpServer. run.
  fold (matches e). rewrite Hall.
  by rewrite (removeFirst_first _ before after_ server).
Qed.

(** X5: the did-uninstall listener of a per-resource service takes out of
    the aggregate list the first server with the event's resource and
    name, only that one, and fires the event once; when no listed server
    has that resource and name it changes nothing and fires nothing. *)
Theorem uninstall_listener_drops_first_match (e : McpServerEvent) (st : State) :
  (Forall (fun server => matches e server = false) (allMcpServers st) ->
   service_onDidUninstallMcpServer e st = (Ok tt, st))
  /\ (forall before server after_,
        allMcpServers st = before ++ server :: after_ ->
        Forall (fun other => matches e other = false) before ->
        matches e server = true ->
        service_onDidUninstallMcpServer e st
        = (Ok tt,
           {| allMcpServers := before ++ after_;
              workspaceMcpManagementServices := workspaceMcpManagementServices st;
              workspaceConfiguration := workspaceConfiguration st;
              history := history st ++ [Fire (onDidUninstallMcpServer e)] |})).
Proof.
  split.
  - apply uninstall_listener_none.
  - intros before server after_. apply uninstall_listener_first.
Qed.

Lemma uninstall_listener_drops_first_match_witness :
  service_onDidUninstallMcpServer (toUninstallEvent serverB) yFolder = (Ok tt, yFolder)
  /\ allMcpServers
       (snd (service_onDidUninstallMcpServer (toUninstallEvent serverB) oneFolder)) = [].
Proof.
  split.
  - apply (proj1 (uninstall_listener_drops_first_match (toUninstallEvent serverB) yFolder)).
    repeat constructor.
  - rewrite (proj2 (uninstall_listener_drops_first_match (toUninstallEvent serverB) oneFolder)
               [] serverB []); reflexivity || (repeat constructor).
Defined.

Lemma forOf_push (e : list InstallMcpServerResult) (st : State) :
  forOf e (fun result =>
      match ir_local result with
      | Some local => setAllMcpServers (fun all => all ++ [local])
      | None => mret tt
      end) st
  = (Ok tt, {| allMcpServers := allMcpServers st ++ locals e;
               workspaceMcpManagementServices := workspaceMcpManagementServices st;
               workspaceConfiguration := workspaceConfiguration st;
               history := history st |}).
Proof.
  revert st. induction e as [|x e IH]; intros st; simpl.
  - rewrite app_nil_r, state_eta. reflexivity.
  - run. destruct (ir_local x) as [local|]; run; rewrite IH; simpl.
    + by rewrite <- app_assoc.
    + reflexivity.
Qed.

Lemma install_listener_run (e : list InstallMcpServerResult) (st : State) :
  service_onDidInstallMcpServers e st
  = (Ok tt, {| allMcpServers := allMcpServers st ++ locals e;
               workspaceMcpManagementServices := workspaceMcpManagementServices st;
               workspaceConfiguration := workspaceConfiguration st;
               history := history st ++ [Fire (onDidInstallMcpServers e)] |}).
Proof. unfold service_onDidInstallMcpServers. run. rewrite forOf_push. reflexivity. Qed.

(** X6: the did-install listener appends to the aggregate list the server
    of every result of the batch that has one, in the order of the batch,
    and fires the batch unchanged, also when it is empty.  It does not
    look for an entry of the same resource and name: when a result carries
    a server whose key is listed already, the key is listed twice
    afterwards. *)
Theorem install_listener_appends (e : list InstallMcpServerResult) (st : State) :
  service_onDidInstallMcpServers e st
  = (Ok tt, {| allMcpServers := allMcpServers st ++ locals e;
               workspaceMcpManagementServices := workspaceMcpManagementServices st;
               workspaceConfiguration := workspaceConfiguration st;
               history := history st ++ [Fire (onDidInstallMcpServers e)] |})
  /\ (forall local,
        local ∈ locals e ->
        key local ∈ map key (allMcpServers st) ->
        ~ NoDup (map key (allMcpServers (snd (service_onDidInstallMcpServers e st))))).
Proof.
  split; [apply install_listener_run|].
  intros local Hlocal Hkey. rewrite install_listener_run. simpl.
  rewrite List.map_app. intros Hnodup.
  apply NoDup_app in Hnodup as (_ & Hdisjoint & _).
  apply (Hdisjoint (key local)); [done|].
  rewrite list_elem_of_In. apply in_map. by rewrite <- list_elem_of_In.
Qed.

Lemma install_listener_appends_witness :
  ~ NoDup (map key (allMcpServers
                      (snd (service_onDidInstallMcpServers [toInstallResult serverB] oneFolder)))).
Proof.
  apply (proj2 (install_listener_appends [toInstallResult serverB] oneFolder) serverB).
  - vm_compute. left.
  - vm_compute. left.
Defined.

(** X7: an install reported by the did-install listener and then undone by
    the did-uninstall listener leaves the aggregate list as it was, when
    no listed server had the resource and name of the installed one. *)
Theorem install_then_uninstall_listener_restores (local : ILocalMcpServer) (st : State) :
  Forall (fun server => matches (toUninstallEvent local) server = false) (allMcpServers st) ->
  let st' := snd (service_onDidUninstallMcpServer (toUninstallEvent local)
                    (snd (service_onDidInstallMcpServers [toInstallResult local] st))) in
  allMcpServers st' = allMcpServers st
  /\ history st' = history st
       ++ [Fire (onDidInstallMcpServers [toInstallResult local]);
           Fire (onDidUninstallMcpServer (toUninstallEvent local))].
Proof.
  intros Hfresh st'. subst st'.
  rewrite install_listener_run. simpl.
  rewrite (uninstall_listener_first (toUninstallEvent local) _
             (allMcpServers st) local []); simpl; try done.
  - rewrite app_nil_r. split; [done|]. by rewrite <- app_assoc.
  - unfold matches, isEqual. simpl. by rewrite !String.eqb_refl.
Qed.

Lemma install_then_uninstall_listener_restores_witness :
  let st' := snd (service_onDidUninstallMcpServer (toUninstallEvent serverB)
                    (snd (service_onDidInstallMcpServers [toInstallResult serverB] yFolder))) in
  allMcpServers st' = allMcpServers yFolder
  /\ history st' = history yFolder
       ++ [Fire (onDidInstallMcpServers [toInstallResult serverB]);
           Fire (onDidUninstallMcpServer (toUninstallEvent serverB))].
Proof.
  apply (install_then_uninstall_listener_restores serverB yFolder).
  repeat constructor.
Defined.

(** X8: a change of the workbench state never fails, whatever the two
    fetches do.  Afterwards the aggregator remembers the workspace
    configuration it was given, the resource it remembered before is no
    longer registered unless it is the new one, and the new one is
    registered; every other registration is kept. *)
Theorem workbench_state_change_swaps_configuration (configuration : option URI)
    (removedInstalled addedInstalled : Result (list ILocalMcpServer)) (st : State) :
  let post := onDidChangeWorkbenchState configuration removedInstalled addedInstalled st in
  fst post = Ok tt
  /\ workspaceConfiguration (snd post) = configuration
  /\ dom (workspaceMcpManagementServices (snd post))
     = (dom (workspaceMcpManagementServices st)
        ∖ (match workspaceConfiguration st with Some c => {[c]} | None => ∅ end))
       ∪ (match configuration with Some c => {[c]} | None => ∅ end).
Proof.
  unfold onDidChangeWorkbenchState. run.
  destruct (workspaceConfiguration st) as [old|] eqn:Hold.
  - pose proof (removeWorkspaceService_dom old removedInstalled st) as Hdom.
    rewrite removeWorkspaceService_run in Hdom |- *. simpl in Hdom |- *.
    set (st1 := match workspaceMcpManagementServices st !! old with
                | Some _ => _ | None => st end) in *.
    destruct configuration as [c|]; run.
    + set (st2 := {| allMcpServers := allMcpServers st1;
                     workspaceMcpManagementServices := workspaceMcpManagementServices st1;
                     workspaceConfiguration := Some c;
                     history := history st1 |}).
      pose proof (addWorkspaceService_dom c WORKSPACE addedInstalled st2) as Hadd.
      rewrite addWorkspaceService_run in Hadd |- *. simpl in Hadd |- *.
      split; [done|]. split.
      * by destruct (workspaceMcpManagementServices st1 !! c).
      * rewrite Hadd. simpl. by rewrite Hdom.
    + split; [done|]. split; [done|]. rewrite Hdom. set_solver.
  - destruct configuration as [c|]; run.
    + set (st2 := {| allMcpServers := allMcpServers st;
                     workspaceMcpManagementServices := workspaceMcpManagementServices st;
                     workspaceConfiguration := Some c;
                     history := history st |}).
      pose proof (addWorkspaceService_dom c WORKSPACE addedInstalled st2) as Hadd.
      rewrite addWorkspaceService_run in Hadd |- *. simpl in Hadd |- *.
      split; [done|]. split.
      * by destruct (workspaceMcpManagementServices st !! c).
      * rewrite Hadd. simpl. set_solver.
    + split; [done|]. split; [done|]. set_solver.
Qed.

End WorkspaceMoreFacts.

(** ** More on the facade *)
Module WorkbenchMoreFacts.
Import Mcp.Workbench Examples WorkbenchFacts.


(** X10: an install into the user scope, which is what an unset, user or
    local user target asks for, goes to the user service with the resource
    of the current profile, whatever resource the caller gave; a gallery
    install goes there with the resource the caller gave and with that of
    the current profile only when none was given. *)
Theorem user_install_takes_the_current_profile (standalone : string) (env : Env)
    (server : IMcpServer) (o : InstallOptions) :
  opt_target o = None
  \/ opt_target o = Some (TConfiguration USER)
  \/ opt_target o = Some (TConfiguration USER_LOCAL) ->
  install standalone env server (Some o)
  = Ok (user_install server
          {| opt_mcpResource := Some (p_mcpResource (currentProfile env));
             opt_target := opt_target o |})
  /\ installFromGallery env server (Some o)
     = Ok (user_installFromGallery server
             {| opt_mcpResource :=
                  Some (default (p_mcpResource (currentProfile env)) (opt_mcpResource o));
                opt_target := opt_target o |}).
Proof.
  intros Ht. split.
  - unfold install, withResource. simpl.
    destruct Ht as [->|[->| ->]]; reflexivity.
  - unfold installFromGallery, withResource. simpl.
    destruct o as [[r|] t]; reflexivity.
Qed.

Lemma user_install_takes_the_current_profile_witness :
  install ".vscode/mcp.json" env1 descriptor
    (Some {| opt_mcpResource := Some "user:/mcp.json"; opt_target := None |})
  = Ok (user_install descriptor
          {| opt_mcpResource := Some "user:/profiles/p/mcp.json"; opt_target := None |})
  /\ installFromGallery env1 descriptor
       (Some {| opt_mcpResource := Some "user:/mcp.json"; opt_target := None |})
     = Ok (user_installFromGallery descriptor
             {| opt_mcpResource := Some "user:/mcp.json"; opt_target := None |}).
Proof.
  apply (user_install_takes_the_current_profile ".vscode/mcp.json" env1 descriptor
           {| opt_mcpResource := Some "user:/mcp.json"; opt_target := None |}).
  left. reflexivity.
Defined.

Lemma uninstall_tagged env server sc :
  (sc = RemoteUser -> remoteMcpManagementService env = true) ->
  exists call, uninstall env (toWorkspaceMcpServer server sc) = Ok call
               /\ calledScope call = sc.
Proof.
  intros Hr. unfold uninstall. simpl. destruct sc; simpl.
  - eexists. by split.
  - rewrite (Hr eq_refl). eexists. by split.
  - eexists. by split.
Qed.

(** X11: for every server that [getInstalled()] returns, [uninstall] of
    the facade does not throw by itself: it hands the call to the service
    of the scope the server is tagged with, which is the one it came from.
    What that service does with the call is no part of this statement: the
    workspace aggregator rejects the server of a resource that is no
    longer registered. *)
Theorem uninstall_goes_back_to_the_origin (env : Env) (sv : Services)
    (installed : list IWorkbenchLocalMcpServer) :
  getInstalled env sv = Ok installed ->
  Forall (fun server =>
            exists call, uninstall env server = Ok call
                         /\ Some (calledScope call) = scope server) installed.
Proof.
  unfold getInstalled.
  destruct (user_getInstalled sv _) as [u|?]; [|done].
  destruct (remoteMcpManagementService env) eqn:Hrem;
    [destruct (remote_getInstalled sv _) as [r|?]; [|done]|];
    (destruct (workspace_getInstalled sv) as [w|?]; [|done]).
  - intros [= <-]. rewrite !pushServers_app. simpl.
    rewrite !Forall_app, !Forall_forall. repeat split.
    all: intros x Hx; apply list_elem_of_In, in_map_iff in Hx as (s & <- & _).
    + destruct (uninstall_tagged env s User) as (call & Hc & Hs); [done|].
      exists call. split; [done|]. by rewrite Hs.
    + destruct (uninstall_tagged env s RemoteUser) as (call & Hc & Hs); [done|].
      exists call. split; [done|]. by rewrite Hs.
    + destruct (uninstall_tagged env s Workspace) as (call & Hc & Hs); [done|].
      exists call. split; [done|]. by rewrite Hs.
  - intros [= <-]. rewrite !pushServers_app. simpl.
    rewrite !Forall_app, !Forall_forall. repeat split.
    all: intros x Hx; apply list_elem_of_In, in_map_iff in Hx as (s & <- & _).
    + destruct (uninstall_tagged env s User) as (call & Hc & Hs); [done|].
      exists call. split; [done|]. by rewrite Hs.
    + destruct (uninstall_tagged env s Workspace) as (call & Hc & Hs); [done|].
      exists call. split; [done|]. by rewrite Hs.
Qed.

Lemma uninstall_goes_back_to_the_origin_witness :
  Forall (fun server =>
            exists call, uninstall env1 server = Ok call
                         /\ Some (calledScope call) = scope server)
    [toWorkspaceMcpServer serverA User;
     toWorkspaceMcpServer serverR RemoteUser;
     toWorkspaceMcpServer serverB Workspace].
Proof.
  apply (uninstall_goes_back_to_the_origin env1 services1). reflexivity.
Defined.




(** X14: an install into a workspace folder is handed to the workspace
    aggregator with the folder's MCP configuration as resource, and the
    aggregator refuses it with the no-service error, changing nothing,
    when that folder is not one it has registered; when it is, the outcome
    is that of the folder's own service. *)
Theorem folder_install_needs_a_registered_folder (standalone : string) (env : Env)
    (service_install : Mcp.Workspace.ServiceItem -> IMcpServer -> InstallOptions
                       -> Mcp.Workspace.M ILocalMcpServer)
    (server : IMcpServer) (o : InstallOptions) (folder : IWorkspaceFolder)
    (st : Mcp.Workspace.State) :
  opt_target o = Some (TFolder folder) ->
  let r := toResource folder standalone in
  let o' := {| opt_mcpResource := Some r; opt_target := opt_target o |} in
  install standalone env server (Some o) = Ok (workspace_install server o')
  /\ (Mcp.Workspace.workspaceMcpManagementServices st !! r = None ->
      Mcp.Workspace.install service_install server (Some o') st
      = (Err (NoManagementService r), st))
  /\ (forall item,
        Mcp.Workspace.workspaceMcpManagementServices st !! r = Some item ->
        Mcp.Workspace.install service_install server (Some o') st
        = service_install item server o' st).
Proof.
  intros Ht r o'. split; [|split].
  - unfold install. simpl. by rewrite Ht.
  - intros Hr. unfold Mcp.Workspace.install. simpl.
    unfold mbind, SE_bind, gets, throw. by rewrite Hr.
  - intros item Hr. unfold Mcp.Workspace.install. simpl.
    unfold mbind, SE_bind, gets. by rewrite Hr.
Qed.

Lemma folder_install_needs_a_registered_folder_witness :
  let o' := {| opt_mcpResource := Some resourceW; opt_target := Some (TFolder folderW) |} in
  install ".vscode/mcp.json" env0 descriptor
    (Some {| opt_mcpResource := None; opt_target := Some (TFolder folderW) |})
  = Ok (workspace_install descriptor o')
  /\ Mcp.Workspace.install storing descriptor (Some o') yFolder
     = (Err (NoManagementService resourceW), yFolder).
Proof.
  destruct (folder_install_needs_a_registered_folder ".vscode/mcp.json" env0 storing
              descriptor {| opt_mcpResource := None; opt_target := Some (TFolder folderW) |}
              folderW yFolder eq_refl) as (Hcall & Hrefused & _).
  split; [exact Hcall|]. apply Hrefused. vm_compute. reflexivity.
Defined.

End WorkbenchMoreFacts.

(** ** More on the prompt resolve errors *)
Module PromptErrorClassesFacts.
Import PromptErrorClasses.

(** X15: [sameTypeAs], which is also the inherited [equal] of every class
    that does not override it, is a test of the class only and goes one
    way: an error is of the same type as every error of its own class or
    of a class that extends it, and as nothing else, so never as [null],
    [undefined] or a value that is no error.  The test is reflexive and
    transitive; it holds both ways only between errors of one class, and
    an [OpenFailed] error is not of the same type as the
    [FailedToResolveContentsStream] error that is of the same type as
    it. *)
Theorem sameTypeAs_is_a_one_way_class_test :
  (forall a, sameTypeAs a (AnError a) = true)
  /\ (forall a b c,
        sameTypeAs a (AnError b) = true -> sameTypeAs b (AnError c) = true ->
        sameTypeAs a (AnError c) = true)
  /\ (forall a b,
        sameTypeAs a (AnError b) = true -> sameTypeAs b (AnError a) = true -> a = b)
  /\ (forall a b, sameTypeAs a (AnError b) = true <-> b = a \/ extends b = Some a)
  /\ (forall a, sameTypeAs a Null = false /\ sameTypeAs a Undefined = false
                /\ sameTypeAs a Other = false)
  /\ sameTypeAs FailedToResolveContentsStream (AnError OpenFailed) = true
  /\ sameTypeAs OpenFailed (AnError FailedToResolveContentsStream) = false.
Proof.
  repeat split.
  - by intros [].
  - by intros [] [] [].
  - by intros [] [].
  - destruct a, b; vm_compute; intros; (by left) || (by right) || done.
  - destruct a, b; vm_compute; intros [H|H]; done.
Qed.

(** X16: the message of a [FolderReference] is the text of
    [NotPromptFile] around its own: it always reads "Resource at P is not
    a prompt file: Entity at 'P' is a folder", followed by a colon and the
    given message when that is not empty. *)
Theorem FolderReference_message_shape (uri : Uri) (message : string) :
  FolderReference_message uri message
  = "Resource at " +:+ path uri +:+ " is not a prompt file: Entity at '"
      +:+ path uri +:+ "' is a folder"
      +:+ (if String.eqb message "" then "" else ": " +:+ message).
Proof.
  unfold FolderReference_message, NotPromptFile_message, truthy. simpl.
  by destruct (String.eqb message "").
Qed.

End PromptErrorClassesFacts.

(** ** The new edit session action *)
Module ChatActionsFacts.
Import ChatActions Examples.

Lemma asked_is_preparation session choice :
  Forall (fun x => preparation x = true) (snd (_handleCurrentEditingSession session choice)).
Proof.
  unfold _handleCurrentEditingSession.
  destruct session as [edits|]; [|constructor].
  destruct (0 <? length edits)%nat; [|constructor].
  destruct (0 <? length (List.filter isModified edits))%nat; [|constructor].
  destruct choice; repeat constructor.
Qed.

Lemma handleCurrentEditingSession_run (editingSession : list WorkingSetEntryState)
    (choice : Choice) :
  _handleCurrentEditingSession (Some editingSession) choice
  = match pending editingSession with
    | 0 => (true, [])
    | S _ =>
        match choice with
        | AcceptAndContinue => (true, [Prompt (pending editingSession); SessionAccept])
        | DiscardAndContinue => (true, [Prompt (pending editingSession); SessionReject])
        | Cancel => (false, [Prompt (pending editingSession)])
        end
    end.
Proof.
  unfold _handleCurrentEditingSession, pending.
  destruct editingSession as [|x l]; [done|].
  change (0 <? length (x :: l))%nat with true. cbv iota.
  by destruct (length (List.filter isModified (x :: l))).
Qed.

Lemma pending_none (editingSession : list WorkingSetEntryState) :
  pending editingSession = 0 <-> ~ In Modified editingSession.
Proof.
  unfold pending. induction editingSession as [|[|] l IH]; simpl.
  - tauto.
  - split; [discriminate|]. intros H. exfalso. apply H. by left.
  - rewrite IH. split.
    + intros H [Hx|Hx]; [discriminate Hx|by apply H].
    + intros H Hx. apply H. by right.
Qed.

(** X17: the action asks about the current session exactly when one of
    its entries is still modified, and then once and first, naming the
    number of modified entries.  It gives up exactly when such a dialog is
    cancelled; the session is accepted exactly when the answer to it is
    "Accept & Continue" and rejected exactly when it is "Discard &
    Continue". *)
Theorem handleCurrentEditingSession_outcome (editingSession : list WorkingSetEntryState)
    (choice : Choice) :
  let outcome := _handleCurrentEditingSession (Some editingSession) choice in
  (fst outcome = false <-> In Modified editingSession /\ choice = Cancel)
  /\ (snd outcome = [] <-> ~ In Modified editingSession)
  /\ (In SessionAccept (snd outcome)
      <-> In Modified editingSession /\ choice = AcceptAndContinue)
  /\ (In SessionReject (snd outcome)
      <-> In Modified editingSession /\ choice = DiscardAndContinue)
  /\ (In Modified editingSession ->
      exists rest,
        snd outcome = Prompt (pending editingSession) :: rest
        /\ (0 < pending editingSession)%nat
        /\ forall n, ~ In (Prompt n) rest).
Proof.
  intros outcome. subst outcome. rewrite handleCurrentEditingSession_run.
  pose proof (pending_none editingSession) as Hnone.
  destruct (pending editingSession) as [|n] eqn:Hp.
  - assert (~ In Modified editingSession) as Hno by (by apply Hnone).
    simpl. repeat split; try tauto; try done.
  - assert (In Modified editingSession) as Hyes.
    { destruct (in_dec (fun a b : WorkingSetEntryState =>
                          ltac:(decide equality) : {a = b} + {a <> b})
                  Modified editingSession) as [Hin|Hin]; [done|].
      apply Hnone in Hin. discriminate Hin. }
    destruct choice; simpl.
    all: split; [split; [done|by intros [_ [=]]]|].
    all: split; [split; [done|by intros Hno]|].
    all: split;
      [split; [intros Hin; try (by split); exfalso;
               (destruct Hin as [[=]|[[=]|[]]] || destruct Hin as [[=]|[]])
              |intros [_ Hc]; try discriminate Hc; right; by left]|].
    all: split;
      [split; [intros Hin; try (by split); exfalso;
               (destruct Hin as [[=]|[[=]|[]]] || destruct Hin as [[=]|[]])
              |intros [_ Hc]; try discriminate Hc; right; by left]|].
    all: intros _; eexists; split; [reflexivity|]; split; [lia|].
    all: intros m Hin; simpl in Hin; (destruct Hin as [[=]|[]] || destruct Hin).
Qed.

Lemma handleCurrentEditingSession_outcome_witness :
  exists rest,
    snd (_handleCurrentEditingSession (Some [Modified; Decided; Modified]) DiscardAndContinue)
    = Prompt 2 :: rest
    /\ (0 < 2)%nat
    /\ forall n, ~ In (Prompt n) rest.
Proof.
  apply (proj2 (proj2 (proj2 (proj2
           (handleCurrentEditingSession_outcome [Modified; Decided; Modified]
              DiscardAndContinue))))).
  left. reflexivity.
Defined.

Lemma applyContext_follows (isChatViewTitleAction : bool) (w : Widget)
    (context : option Context) :
  Forall (fun x => preparation x = false) (applyContext isChatViewTitleAction w context).
Proof.
  unfold applyContext. destruct context as [c|]; [|constructor].
  apply Forall_app. split.
  - destruct (agentMode c); [|constructor].
    destruct isChatViewTitleAction; repeat constructor.
  - destruct (inputValue c) as [v|]; [|constructor].
    destruct (String.eqb v ""); [constructor|].
    destruct (isPartialQuery c) as [[|]|]; repeat constructor.
Qed.

Lemma applyContext_toggles (w : Widget) (context : option Context) (mode : bool) :
  ~ In (ToggleToolsAgentMode mode) (applyContext true w context).
Proof.
  unfold applyContext. intros Hin.
  destruct context as [c|]; [|destruct Hin].
  apply in_app_or in Hin as [Hin|Hin].
  - destruct (agentMode c); destruct Hin.
  - destruct (inputValue c) as [v|]; [|destruct Hin].
    destruct (String.eqb v ""); [destruct Hin|].
    destruct (isPartialQuery c) as [[|]|]; by destruct Hin as [[=]|[]].
Qed.

(** The action in one equation: what is asked, then, unless it gives up,
    the opening of the view, the signal, and what is done to the widget. *)
Lemma runEditingSessionAction_run (env : Env) (editingSession : list WorkingSetEntryState)
    (choice : Choice) (context : option Context) :
  runEditingSessionAction env editingSession choice context
  = let outcome := _handleCurrentEditingSession (Some editingSession) choice in
    if fst outcome then
      (snd outcome ++ match isChatViewTitleActionContext context with
                      | Some _ => []
                      | None => [OpenEditsView]
                      end)
      ++ [PlayClearSignal]
      ++ match match isChatViewTitleActionContext context with
               | Some id => getWidgetBySessionId env id
               | None => editsViewWidget env
               end with
         | None => []
         | Some w =>
             [SessionStop; WidgetClear w; AttachmentModelClear w]
             ++ (if relatedFiles w then [RelatedFilesClear w] else [])
             ++ [FocusInput w]
             ++ applyContext (bool_decide (is_Some (isChatViewTitleActionContext context)))
                  w context
         end
    else snd outcome.
Proof.
  unfold runEditingSessionAction.
  destruct (_handleCurrentEditingSession (Some editingSession) choice) as [[|] asked];
    simpl; [|done].
  destruct (isChatViewTitleActionContext context) as [id|]; simpl.
  - by rewrite app_nil_r.
  - by rewrite <- app_assoc.
Qed.

(** X18: when the dialog is cancelled the action does nothing beyond
    asking: no signal, nothing stopped or cleared.  Otherwise the cleared
    signal is played after the asking and the opening of the view, which
    is all that comes before it.  The widget is the one of the session of a
    chat view title context, else the one of the edits view.  When there
    is none the signal is the last thing done; when there is one, the
    session is stopped, then that widget and its attachments are cleared,
    in that order, right after the signal, and nothing is asked, accepted,
    rejected or opened from then on.  The agent mode is never toggled from
    a chat view title context. *)
Theorem new_edit_session_order (env : Env) (editingSession : list WorkingSetEntryState)
    (choice : Choice) (context : option Context) :
  let effects := runEditingSessionAction env editingSession choice context in
  let widget := match isChatViewTitleActionContext context with
                | Some id => getWidgetBySessionId env id
                | None => editsViewWidget env
                end in
  (fst (_handleCurrentEditingSession (Some editingSession) choice) = false ->
   effects = [Prompt (pending editingSession)])
  /\ (fst (_handleCurrentEditingSession (Some editingSession) choice) = true ->
      exists before,
        Forall (fun x => preparation x = true) before
        /\ match widget with
           | None => effects = before ++ [PlayClearSignal]
           | Some w =>
               exists rest,
                 effects = before
                   ++ [PlayClearSignal; SessionStop; WidgetClear w; AttachmentModelClear w]
                   ++ rest
                 /\ Forall (fun x => preparation x = false) rest
           end)
  /\ (forall mode,
        In (ToggleToolsAgentMode mode) effects ->
        isChatViewTitleActionContext context = None).
Proof.
  intros effects widget. subst effects.
  rewrite runEditingSessionAction_run. cbv zeta.
  pose proof (asked_is_preparation (Some editingSession) choice) as Hasked.
  split; [|split].
  - intros Hstop. rewrite Hstop. clear Hasked.
    rewrite handleCurrentEditingSession_run in *.
    destruct (pending editingSession); [done|]. by destruct choice.
  - intros Hgo. rewrite Hgo.
    exists (snd (_handleCurrentEditingSession (Some editingSession) choice)
              ++ match isChatViewTitleActionContext context with
                 | Some _ => []
                 | None => [OpenEditsView]
                 end).
    split.
    { apply Forall_app. split; [done|].
      destruct (isChatViewTitleActionContext context); repeat constructor. }
    fold widget. destruct widget as [w|]; [|done].
    eexists. split; [reflexivity|].
    apply Forall_app. split; [destruct (relatedFiles w); repeat constructor|].
    apply Forall_cons. split; [done|]. apply applyContext_follows.
  - intros mode Hin.
    assert (forall l, Forall (fun x => preparation x = true) l ->
                      ~ In (ToggleToolsAgentMode mode) l) as Hprep.
    { intros l Hl Hx. rewrite Forall_forall in Hl.
      apply list_elem_of_In, Hl in Hx. discriminate Hx. }
    destruct (fst (_handleCurrentEditingSession (Some editingSession) choice));
      [|by apply Hprep in Hin].
    destruct (isChatViewTitleActionContext context) as [id|] eqn:Hctx; [|done].
    exfalso. rewrite app_nil_r in Hin.
    apply in_app_or in Hin as [Hin|Hin]; [by apply Hprep in Hin|].
    destruct Hin as [[=]|Hin].
    fold widget in Hin. destruct widget as [w|]; [|done].
    repeat (destruct Hin as [[=]|Hin]).
    simpl in Hin. apply in_app_or in Hin as [Hin|Hin];
      [destruct (relatedFiles w); [by destruct Hin as [[=]|[]]|destruct Hin]|].
    destruct Hin as [[=]|Hin].
    by apply applyContext_toggles in Hin.
Qed.

Lemma new_edit_session_order_witness :
  runEditingSessionAction chatEnv [Modified; Decided] Cancel (Some chatContext) = [Prompt 1]
  /\ exists before,
       Forall (fun x => preparation x = true) before
       /\ exists rest,
            runEditingSessionAction chatEnv [Modified; Decided] AcceptAndContinue
              (Some chatContext)
            = before
              ++ [PlayClearSignal; SessionStop; WidgetClear chatWidget;
                  AttachmentModelClear chatWidget]
              ++ rest
            /\ Forall (fun x => preparation x = false) rest.
Proof.
  split.
  - apply (proj1 (new_edit_session_order chatEnv [Modified; Decided] Cancel
                    (Some chatContext))).
    reflexivity.
  - apply (proj1 (proj2 (new_edit_session_order chatEnv [Modified; Decided] AcceptAndContinue
                           (Some chatContext)))).
    reflexivity.
Defined.

End ChatActionsFacts.

(** ** More on the notebook diff navigation *)
Module NotebookNavMoreFacts.
Import NotebookNav Examples.

Lemma totalPositions_nonneg (l : list ICellDiffInfo) : (0 <= totalPositions l)%Z.
Proof.
  induction l as [|x l IH]; simpl; [lia|].
  unfold positions. destruct (type x); lia.
Qed.

Lemma indexUpTo_bounds (l : list ICellDiffInfo) (current : ICellDiffInfo) (i acc : Z) :
  existsb (fun x => (ref x =? ref current)%nat) l = true ->
  Forall (fun x => ref x = ref current -> x = current) l ->
  type current <> Unchanged ->
  (type current = Modified -> (0 <= i < Z.of_nat (length (changes current)))%Z) ->
  (acc <= indexUpTo l current i acc < acc + totalPositions l)%Z.
Proof.
  intros Hex Hid Hu Hi. revert acc Hex Hid.
  induction l as [|x l IH]; intros acc Hex Hid; simpl in *; [done|].
  apply Forall_cons in Hid as [Hx Hid].
  pose proof (totalPositions_nonneg l) as Hnn.
  destruct (ref x =? ref current)%nat eqn:E.
  - apply Nat.eqb_eq in E. rewrite (Hx E).
    unfold isType, positions. destruct (type current) eqn:Ht; try done; try lia.
    specialize (Hi eq_refl). lia.
  - simpl in Hex. unfold positions.
    destruct (type x);
      match goal with
      | |- context [indexUpTo l current i ?a] => specialize (IH a Hex Hid)
      end; lia.
Qed.

Section Widget.

Variable Integration : Type.
Variable integration_reveal : Integration -> bool -> Integration.
Variable integration_next : Integration -> bool -> bool * Integration.
Variable integration_previous : Integration -> bool -> bool * Integration.
Variable integration_currentIndex : Integration -> Z.
Variable sortCellChanges : list ICellDiffInfo -> list ICellDiffInfo.

Abbreviation next :=
  (next Integration integration_reveal integration_next integration_currentIndex
     sortCellChanges).
Abbreviation previous :=
  (previous Integration integration_reveal integration_previous integration_currentIndex
     sortCellChanges).
Abbreviation _revealFirstOrLast := (_revealFirstOrLast Integration integration_reveal).
Abbreviation sortedChanges := (sortedChanges Integration sortCellChanges).
Abbreviation currentIndexOf := (currentIndexOf Integration sortCellChanges).
Abbreviation reveal' := (reveal' Integration integration_reveal sortCellChanges).
Abbreviation shown := (shown Integration).

(** X19: the index shown for the current change is a position among the
    changes: when the current change is one of the sorted changes, is not
    an unchanged cell and, for a modified cell, its index is one of the
    cell's line changes, the index lies between 0 and the number of
    positions of all changes; without a current change it is -1. *)
Theorem currentIndex_in_range (w : Widget Integration) :
  (currentChange w = None -> currentIndexOf w = (-1)%Z)
  /\ (forall change i,
        currentChange w = Some (change, i) ->
        existsb (fun x => (ref x =? ref change)%nat) (sortCellChanges (cellChanges w)) = true ->
        Forall (fun x => ref x = ref change -> x = change) (sortCellChanges (cellChanges w)) ->
        type change <> Unchanged ->
        (type change = Modified -> (0 <= i < Z.of_nat (length (changes change)))%Z) ->
        (0 <= currentIndexOf w < totalPositions (sortCellChanges (cellChanges w)))%Z).
Proof.
  unfold NotebookNav.currentIndexOf. split.
  - by intros ->.
  - intros change i -> Hex Hid Hu Hi.
    pose proof (indexUpTo_bounds _ change i 0 Hex Hid Hu Hi). lia.
Qed.

(** A change that can be shown becomes the current change. *)
Lemma revealFirstOrLast_shown (w : Widget Integration) (change : ICellDiffInfo) (b : bool) :
  shown w change = true ->
  exists w',
    _revealFirstOrLast change b w = (Ok true, w')
    /\ currentChange w' = Some (change, if b then 0%Z else lastChangeIndex change)
    /\ cellChanges w' = cellChanges w.
Proof.
  unfold NotebookNav.shown, NotebookNav._revealFirstOrLast, lastChangeIndex, isType.
  destruct (type change) eqn:Ht; try done.
  - (* inserted cell *)
    destruct (modifiedCellIndex change) as [index|] eqn:Hm; [|done].
    destruct (cells w !! index) as [handle|] eqn:Hc; [|done].
    unfold mbind, mret, SE_bind, SE_ret, gets, getCell. simpl.
    rewrite Hc. simpl.
    destruct (cellEditorIntegrations w !! handle) as [i|] eqn:Hi; simpl.
    + intros _. eexists. split; [reflexivity|]. simpl. rewrite orb_true_r.
      split; [by destruct b|done].
    + intros Hv. destruct (viewCells w) as [vcs|] eqn:Hvc; [|done].
      unfold _revealChange, getCellViewModel, mbind, mret, SE_bind, SE_ret.
      rewrite Ht, Hm, Hvc, Hc. rewrite orb_true_r.
      destruct (List.find (Nat.eqb handle) vcs) as [h|] eqn:Hf.
      * eexists. split; [reflexivity|]. simpl. split; [by destruct b|done].
      * apply existsb_exists in Hv as (h & Hin & Hh).
        by rewrite (find_none _ _ Hf h Hin) in Hh.
  - (* deleted cell *)
    intros _. unfold revealDeleted, mbind, mret, SE_bind, SE_ret, gets. simpl.
    destruct (deletedCellDecorator w); simpl;
      (eexists; split; [reflexivity|]; simpl; split; [by destruct b|done]).
  - (* modified cell *)
    destruct (modifiedCellIndex change) as [index|] eqn:Hm; [|done].
    destruct (cells w !! index) as [handle|] eqn:Hc; [|done].
    unfold mbind, mret, SE_bind, SE_ret, gets, getCell. simpl.
    rewrite Hc. simpl.
    destruct (cellEditorIntegrations w !! handle) as [i|] eqn:Hi; simpl.
    + intros _. eexists. split; [reflexivity|]. simpl. rewrite orb_false_r.
      split; [by destruct b|done].
    + intros Hv. destruct (viewCells w) as [vcs|] eqn:Hvc; [|done].
      unfold _revealChange, getCellViewModel, mbind, mret, SE_bind, SE_ret.
      rewrite Ht, Hm, Hvc, Hc. rewrite orb_false_r.
      destruct (List.find (Nat.eqb handle) vcs) as [h|] eqn:Hf.
      * eexists. split; [reflexivity|]. simpl. split; [by destruct b|done].
      * apply existsb_exists in Hv as (h & Hin & Hh).
        by rewrite (find_none _ _ Hf h Hin) in Hh.
Qed.

(** X20: from an inserted or deleted cell, [next] goes to the change that
    follows it in the sorted changes, at its first position, and returns
    true, with either value of [wrap], whenever that change can be shown;
    the list of changes is left alone. *)
Theorem next_moves_to_the_following_change (w : Widget Integration)
    (change following : ICellDiffInfo) (i : Z) (wrap : bool) :
  currentChange w = Some (change, i) ->
  type change = Insert \/ type change = Delete ->
  at_ (sortedChanges w) (indexOf (sortedChanges w) change + 1) = Some following ->
  shown w following = true ->
  exists w',
    next wrap w = (Ok true, w')
    /\ currentChange w' = Some (following, 0%Z)
    /\ cellChanges w' = cellChanges w.
Proof.
  intros Hc Ht Hat Hs.
  destruct (revealFirstOrLast_shown w following true Hs) as (w' & Hr & Hcur & Hch).
  exists w'. split; [|done].
  unfold NotebookNav.next, next_body, mbind, mret, SE_bind, SE_ret, gets. simpl.
  rewrite Hc. destruct Ht as [Ht|Ht]; rewrite Ht, Hat; exact Hr.
Qed.

(** X21: from an inserted or deleted cell, [previous] goes to the change
    before it, at that change's last position, and returns true whenever
    that change can be shown.  When there is no change before it,
    [previous(false)] returns false and changes nothing, and
    [previous(true)] goes to the last of the sorted changes, at its last
    position, when that one can be shown. *)
Theorem previous_moves_back_or_cycles (w : Widget Integration)
    (change : ICellDiffInfo) (i : Z) :
  currentChange w = Some (change, i) ->
  type change = Insert \/ type change = Delete ->
  (forall before wrap,
     at_ (sortedChanges w) (indexOf (sortedChanges w) change - 1) = Some before ->
     shown w before = true ->
     exists w',
       previous wrap w = (Ok true, w')
       /\ currentChange w' = Some (before, lastChangeIndex before)
       /\ cellChanges w' = cellChanges w)
  /\ (at_ (sortedChanges w) (indexOf (sortedChanges w) change - 1) = None ->
      previous false w = (Ok false, w)
      /\ forall lastChange,
           at_ (sortedChanges w) (Z.of_nat (length (sortedChanges w)) - 1) = Some lastChange ->
           shown w lastChange = true ->
           exists w',
             previous true w = (Ok true, w')
             /\ currentChange w' = Some (lastChange, lastChangeIndex lastChange)
             /\ cellChanges w' = cellChanges w).
Proof.
  intros Hc Ht. split.
  - intros before wrap Hat Hs.
    destruct (revealFirstOrLast_shown w before false Hs) as (w' & Hr & Hcur & Hch).
    exists w'. split; [|done].
    unfold NotebookNav.previous, mbind, mret, SE_bind, SE_ret, gets. simpl.
    rewrite Hc. destruct Ht as [Ht|Ht]; rewrite Ht, Hat; exact Hr.
  - intros Hat. split.
    + unfold NotebookNav.previous, mbind, mret, SE_bind, SE_ret, gets. simpl.
      rewrite Hc. by destruct Ht as [Ht|Ht]; rewrite Ht, Hat.
    + intros lastChange Hlast Hs.
      destruct (revealFirstOrLast_shown w lastChange false Hs) as (w' & Hr & Hcur & Hch).
      exists w'. split; [|done].
      unfold NotebookNav.previous, mbind, mret, SE_bind, SE_ret, gets. simpl.
      rewrite Hc. destruct Ht as [Ht|Ht]; rewrite Ht, Hat, Hlast; exact Hr.
Qed.

(** X22: without a current change, [next] leaves the widget as
    [reveal(true)] does and [previous] as [reveal(false)] does, and each
    returns false, changing nothing, when there is no change to go to. *)
Theorem navigation_starts_with_a_reveal (w : Widget Integration) (wrap : bool) :
  currentChange w = None ->
  snd (next wrap w) = snd (reveal' true w)
  /\ snd (previous wrap w) = snd (reveal' false w)
  /\ (sortedChanges w = [] ->
      next wrap w = (Ok false, w) /\ previous wrap w = (Ok false, w)).
Proof.
  intros Hc.
  unfold NotebookNav.next, next_body, NotebookNav.previous, NotebookNav.reveal',
    mbind, mret, SE_bind, SE_ret, gets. simpl.
  rewrite Hc.
  destruct (NotebookNav.sortedChanges Integration sortCellChanges w) as [|x l] eqn:Hs.
  - by repeat split.
  - split; [|split; [|done]].
    + destruct (at_ (x :: l) 0) as [c|]; [|done].
      by destruct (NotebookNav._revealFirstOrLast Integration integration_reveal c true w)
        as [[|] ?].
    + destruct (at_ (x :: l) _) as [c|]; [|done].
      by destruct (NotebookNav._revealFirstOrLast Integration integration_reveal c false w)
        as [[|] ?].
Qed.

End Widget.

Lemma next_moves_to_the_following_change_witness :
  exists w',
    next0 false (notebook (Some (changeA, 0%Z)) []) = (Ok true, w')
    /\ NotebookNav.currentChange w' = Some (changeB, 0%Z)
    /\ NotebookNav.cellChanges w' = NotebookNav.cellChanges (notebook (Some (changeA, 0%Z)) []).
Proof.
  apply (next_moves_to_the_following_change unit (fun i _ => i) (fun i _ => (false, i))
           (fun _ => 0%Z) (fun l => l) (notebook (Some (changeA, 0%Z)) [])
           changeA changeB 0%Z false).
  - reflexivity.
  - left. reflexivity.
  - reflexivity.
  - reflexivity.
Defined.

Lemma previous_moves_back_or_cycles_witness :
  previous0 false (notebook (Some (changeA, 0%Z)) [])
    = (Ok false, notebook (Some (changeA, 0%Z)) [])
  /\ exists w',
       previous0 true (notebook (Some (changeA, 0%Z)) []) = (Ok true, w')
       /\ NotebookNav.currentChange w' = Some (changeB, 0%Z)
       /\ NotebookNav.cellChanges w'
          = NotebookNav.cellChanges (notebook (Some (changeA, 0%Z)) []).
Proof.
  destruct (proj2 (previous_moves_back_or_cycles unit (fun i _ => i) (fun i _ => (false, i))
                     (fun _ => 0%Z) (fun l => l) (notebook (Some (changeA, 0%Z)) [])
                     changeA 0%Z eq_refl (or_introl eq_refl)) eq_refl) as [Hfalse Htrue].
  split; [exact Hfalse|].
  apply (Htrue changeB); reflexivity.
Defined.

Lemma navigation_starts_with_a_reveal_witness :
  snd (next0 true (notebook None []))
    = snd (NotebookNav.reveal' unit (fun i _ => i) (fun l => l) true (notebook None []))
  /\ NotebookNav.currentChange (snd (next0 true (notebook None []))) = Some (changeA, 0%Z).
Proof.
  split.
  - apply (navigation_starts_with_a_reveal unit (fun i _ => i) (fun i _ => (false, i))
             (fun i _ => (false, i)) (fun _ => 0%Z) (fun l => l) (notebook None []) true).
    reflexivity.
  - reflexivity.
Defined.

Lemma currentIndex_in_range_witness :
  (0 <= NotebookNav.currentIndexOf unit (fun l => l) (notebookM (Some (changeM, 1%Z)))
     < NotebookNav.totalPositions [changeA; changeM; changeB])%Z.
Proof.
  apply (proj2 (currentIndex_in_range unit (fun l => l) (notebookM (Some (changeM, 1%Z))))
           changeM 1%Z).
  - reflexivity.
  - reflexivity.
  - repeat constructor; intros H; try discriminate H; reflexivity.
  - discriminate.
  - intros _. simpl. lia.
Defined.

End NotebookNavMoreFacts.

(** ** The aggregator and the facade together *)
Module McpWiringFacts.
Import Mcp.Workspace McpWiring Examples WorkspaceFacts.

Lemma forwarded_app env (h1 h2 : list Effect) :
  forwarded env (h1 ++ h2) = forwarded env h1 ++ forwarded env h2.
Proof. unfold forwarded. apply flat_map_app. Qed.

Lemma forwarded_uninstallEvents env (l : list ILocalMcpServer) :
  forwarded env (uninstallEvents l)
  = flat_map (fun server =>
      [Mcp.Workbench.onDidUninstallMcpServer (toUninstallEvent server);
       Mcp.Workbench.onDidUninstallMcpServerInCurrentProfile (toUninstallEvent server)]) l.
Proof.
  unfold forwarded, uninstallEvents.
  induction l as [|x l IH]; simpl; [done|]. do 2 f_equal. exact IH.
Qed.

(** X23: when a registered workspace resource is removed and its service
    reports the servers [l], a listener of the facade sees, for each
    server of [l] in order, one did-uninstall event on the all-scopes
    stream and the same event on the current-profile stream, and nothing
    else; when the fetch fails it sees nothing. *)
Theorem removal_as_the_facade_hears_it (env : Mcp.Workbench.Env) (r : URI)
    (f : Result (list ILocalMcpServer)) (st : State) :
  is_Some (workspaceMcpManagementServices st !! r) ->
  forwarded env (history (snd (removeWorkspaceService r f st)))
  = forwarded env (history st)
    ++ flat_map (fun server =>
         [Mcp.Workbench.onDidUninstallMcpServer (toUninstallEvent server);
          Mcp.Workbench.onDidUninstallMcpServerInCurrentProfile (toUninstallEvent server)])
       (fetched f).
Proof.
  intros [item Hitem].
  rewrite removeWorkspaceService_run, Hitem. simpl.
  rewrite !forwarded_app.
  destruct f as [l|e]; simpl.
  - rewrite forwarded_uninstallEvents. by rewrite app_nil_r.
  - done.
Qed.

Lemma removal_as_the_facade_hears_it_witness :
  forwarded env0 (history (snd (removeWorkspaceService resourceW (Ok [serverB]) oneFolder)))
  = forwarded env0 (history oneFolder)
    ++ [Mcp.Workbench.onDidUninstallMcpServer (toUninstallEvent serverB);
        Mcp.Workbench.onDidUninstallMcpServerInCurrentProfile (toUninstallEvent serverB)].
Proof.
  apply (removal_as_the_facade_hears_it env0 resourceW (Ok [serverB]) oneFolder).
  vm_compute. eexists. reflexivity.
Defined.

End McpWiringFacts.
